(** * Facebook ads scraper: query builder, paginator and normaliser

    A shallow embedding of [facebook_ads_scraper.py].  The pieces of the
    program that carry logic are embedded function by function:

    - [get_params_config]        (module [QueryBuilder]),
    - [get_ads_data_for_domain]  (module [Paginator]),
    - [extract_from_url], [extract_domain], [ensure_serializable] and
      [process_ads_data]         (module [Normalizer]),
    - the loop of [main] over the items to scrape (module [Driver]),
    - [parse_urlencoded_to_dict] and the two inputs [main] reads from its
      text boxes                 (module [Inputs]),
    - the rows of [save_to_excel] (module [Exporter]).

    Python values are an inductive type [pyval]; a call that can raise
    returns a [result].  A Python [str] is represented by its UTF-8 bytes
    (a Rocq [string]); every character the program itself looks for is
    ASCII, so splitting and stripping agree with Python's.  Functions of
    libraries the program calls but does not define (json, requests,
    urllib, pandas) are section variables: each theorem holds whatever
    those functions answer, unless a hypothesis says otherwise.  The
    Streamlit calls only display text and are left out. *)

From Stdlib Require Import ZArith String Ascii List Bool Lia.
From Stdlib Require Import Floats.SpecFloat.
From stdpp Require Import base strings gmap list.

Open Scope string_scope.
Open Scope list_scope.

(** ** Python values, exceptions and results *)

Module Py.

Inductive exn : Type :=
| ValueError (msg : string)
| AttributeError
| TypeError
| KeyError
| IndexError
| JSONDecodeError
| UnicodeDecodeError
| NotImplementedError
| RequestException (kind : string).

Inductive result (A : Type) : Type :=
| Ok (a : A)
| Raise (e : exn).

Arguments Ok {A} a.
Arguments Raise {A} e.

#[export] Instance result_ret : MRet result := fun _ a => Ok a.
#[export] Instance result_bind : MBind result := fun _ _ f m =>
  match m with
  | Ok a => f a
  | Raise e => Raise e
  end.

Definition is_ok {A} (r : result A) : bool :=
  match r with Ok _ => true | Raise _ => false end.

(** The values a decoded JSON document is made of, and [bytes], which
    [urlparse] hands back for an input that is not text. *)
#[warnings="-register-all"]
Inductive pyval : Type :=
| PNone
| PBool (b : bool)
| PInt (n : Z)
| PFloat (f : spec_float)
| PStr (s : string)
| PBytes (s : string)
| PList (l : list pyval)
| PDict (kvs : list (string * pyval)).

(** Induction over values that also reaches the members of lists and
    dictionaries. *)
Section pyval_induction.
Variable P : pyval -> Prop.
Hypothesis HNone : P PNone.
Hypothesis HBool : forall b, P (PBool b).
Hypothesis HInt : forall n, P (PInt n).
Hypothesis HFloat : forall f, P (PFloat f).
Hypothesis HStr : forall s, P (PStr s).
Hypothesis HBytes : forall s, P (PBytes s).
Hypothesis HList : forall l, Forall P l -> P (PList l).
Hypothesis HDict : forall kvs, Forall (fun kv => P (snd kv)) kvs -> P (PDict kvs).

Fixpoint pyval_nested_ind (v : pyval) : P v :=
  match v with
  | PNone => HNone
  | PBool b => HBool b
  | PInt n => HInt n
  | PFloat f => HFloat f
  | PStr s => HStr s
  | PBytes s => HBytes s
  | PList l =>
      HList l ((fix members (l : list pyval) : Forall P l :=
                  match l with
                  | [] => List.Forall_nil P
                  | x :: l' => @List.Forall_cons _ P x l' (pyval_nested_ind x) (members l')
                  end) l)
  | PDict kvs =>
      HDict kvs ((fix members (l : list (string * pyval))
                    : Forall (fun kv => P (snd kv)) l :=
                    match l with
                    | [] => List.Forall_nil _
                    | kv :: l' =>
                        @List.Forall_cons _ (fun kv => P (snd kv)) kv l'
                          (pyval_nested_ind (snd kv)) (members l')
                    end) kvs)
  end.
End pyval_induction.

(** [bool(v)]: what [if v] and [not v] test. *)
Definition truthy (v : pyval) : bool :=
  match v with
  | PNone => false
  | PBool b => b
  | PInt n => negb (n =? 0)%Z
  | PFloat (S754_zero _) => false
  | PFloat _ => true
  | PStr s => negb (s =? "")
  | PBytes s => negb (s =? "")
  | PList l => match l with [] => false | _ => true end
  | PDict kvs => match kvs with [] => false | _ => true end
  end.

Definition is_list (v : pyval) : bool :=
  match v with PList _ => true | _ => false end.

Definition is_dict (v : pyval) : bool :=
  match v with PDict _ => true | _ => false end.

(** A dictionary is kept as the list of its items; a key is looked up at
    its first item. *)
Fixpoint assoc (k : string) (kvs : list (string * pyval)) : option pyval :=
  match kvs with
  | [] => None
  | (k', v) :: rest => if k' =? k then Some v else assoc k rest
  end.

(** [d.get(k, default)]: only a dictionary has the method. *)
Definition py_get (d : pyval) (k : string) (default : pyval) : result pyval :=
  match d with
  | PDict kvs => Ok (match assoc k kvs with Some v => v | None => default end)
  | _ => Raise AttributeError
  end.

(** [k in d], used on a value that already answered [.get]. *)
Definition py_contains (d : pyval) (k : string) : bool :=
  match d with
  | PDict kvs => match assoc k kvs with Some _ => true | None => false end
  | _ => false
  end.

(** [d[k]] with a text key. *)
Definition py_getitem (d : pyval) (k : string) : result pyval :=
  match d with
  | PDict kvs => match assoc k kvs with Some v => Ok v | None => Raise KeyError end
  | PNone | PBool _ | PInt _ | PFloat _ => Raise TypeError
  | PStr _ | PBytes _ | PList _ => Raise TypeError
  end.

(** ** Text helpers *)

Fixpoint mem_char (c : ascii) (chars : string) : bool :=
  match chars with
  | EmptyString => false
  | String c' rest => if Ascii.eqb c c' then true else mem_char c rest
  end.

(** [s.lstrip(chars)]: drops leading characters as long as they belong to
    the set [chars]. *)
Fixpoint lstrip (s chars : string) : string :=
  match s with
  | EmptyString => EmptyString
  | String c rest => if mem_char c chars then lstrip rest chars else s
  end.

(** [s.partition(sep)] for a one-character separator: the text before the
    first [sep], and the text after it when there is one. *)
Fixpoint partition_char (sep : ascii) (s : string) : string * option string :=
  match s with
  | EmptyString => (EmptyString, None)
  | String c rest =>
      if Ascii.eqb c sep then (EmptyString, Some rest)
      else let '(before, after) := partition_char sep rest in
           (String c before, after)
  end.

(** [s.split(sep)] for a one-character separator. *)
Fixpoint split_char (sep : ascii) (s : string) : list string :=
  match s with
  | EmptyString => [EmptyString]
  | String c rest =>
      if Ascii.eqb c sep then EmptyString :: split_char sep rest
      else match split_char sep rest with
           | [] => [String c EmptyString]
           | piece :: pieces => String c piece :: pieces
           end
  end.

(** [s.replace(a, b)] for single characters. *)
Fixpoint replace_char (a b : ascii) (s : string) : string :=
  match s with
  | EmptyString => EmptyString
  | String c rest => String (if Ascii.eqb c a then b else c) (replace_char a b rest)
  end.

(** The characters of a text: in UTF-8 a character is a leading byte and
    the continuation bytes ([10xxxxxx]) that follow it. *)
Definition is_continuation (c : ascii) : bool :=
  let n := nat_of_ascii c in andb (128 <=? n)%nat (n <=? 191)%nat.

Fixpoint chars (s : string) : list string :=
  match s with
  | EmptyString => []
  | String c rest =>
      match chars rest with
      | String c' next :: more =>
          if is_continuation c' then String c (String c' next) :: more
          else String c EmptyString :: String c' next :: more
      | l => String c EmptyString :: l
      end
  end.

(** [s.upper()] of an ASCII text, which the three statuses of the form
    are; a text with other letters, which [str.upper] may also change, is
    outside what is modelled. *)
Definition upper_ascii (c : ascii) : ascii :=
  let n := nat_of_ascii c in
  if andb (97 <=? n)%nat (n <=? 122)%nat then ascii_of_nat (n - 32) else c.

Fixpoint upper (s : string) : string :=
  match s with
  | EmptyString => EmptyString
  | String c rest => String (upper_ascii c) (upper rest)
  end.

(** ** Calendar dates and [strftime('%Y-%m-%d')] *)

Record date : Type := { year : Z; month : Z; day : Z }.

Definition digit (n : Z) : ascii := ascii_of_nat (48 + Z.to_nat (n mod 10)).

Definition pad2 (n : Z) : string :=
  String (digit (n / 10)) (String (digit n) EmptyString).

Definition pad4 (n : Z) : string :=
  String (digit (n / 1000)) (String (digit (n / 100)) (pad2 n)).

(** [%Y] for a year from 1 to 9999, which is every year a Python date
    has: the C library writes it without leading zeros, so the year 999
    is written [999]. *)
Definition year_text (y : Z) : string :=
  if (y <? 10)%Z then String (digit y) EmptyString
  else if (y <? 100)%Z then pad2 y
  else if (y <? 1000)%Z then String (digit (y / 100)) (pad2 y)
  else pad4 y.

(** [strftime('%Y-%m-%d')] of a Python date: a year from 1 to 9999, a
    month from 1 to 12 and a day from 1 to 31.  A [date] outside these
    ranges stands for no Python value; the theorems that state what is
    written assume a date of four digits ([four_digit_date] below). *)
Definition strftime_ymd (d : date) : string :=
  year_text (year d) +:+ "-" +:+ pad2 (month d) +:+ "-" +:+ pad2 (day d).

(** The proleptic Gregorian date of a day counted from 1970-01-01. *)
Definition civil_from_days (days : Z) : date :=
  let z := (days + 719468)%Z in
  let era := (z / 146097)%Z in
  let doe := (z - era * 146097)%Z in
  let yoe := ((doe - doe / 1460 + doe / 36524 - doe / 146096) / 365)%Z in
  let doy := (doe - (365 * yoe + yoe / 4 - yoe / 100))%Z in
  let mp := ((5 * doy + 2) / 153)%Z in
  let d := (doy - (153 * mp + 2) / 5 + 1)%Z in
  let m := (if mp <? 10 then mp + 3 else mp - 9)%Z in
  {| year := (yoe + era * 400 + (if m <=? 2 then 1 else 0))%Z; month := m; day := d |}.

End Py.

Import Py.

(** ** Query builder: [get_params_config] *)

Module QueryBuilder.

(** [not query] for an optional text argument: [None] and [''] are both
    false. *)
Definition not_given (arg : option string) : bool :=
  match arg with
  | None => true
  | Some s => s =? ""
  end.

Definition text_of (arg : option string) : pyval :=
  match arg with
  | None => PNone
  | Some s => PStr s
  end.

Definition common_params (session_id ad_status country : string)
    (start_date end_date : date) (v_value : string) : gmap string pyval :=
  <["session_id" := PStr session_id]>
  (<["count" := PStr "30"]>
  (<["active_status" := PStr (if ad_status =? "Both" then "ALL" else upper ad_status)]>
  (<["ad_type" := PStr "all"]>
  (<["country[0]" := PStr country]>
  (<["media_type" := PStr "all"]>
  (<["start_date" := PStr (strftime_ymd start_date)]>
  (<["end_date" := PStr (strftime_ymd end_date)]>
  (<["v" := PStr v_value]> ∅)))))))).

(** In [{'q': query, 'search_type': ..., **common_params}] the common
    entries are written last, so they are the ones kept on a shared key. *)
Definition get_params_config (config_type session_id ad_status country : string)
    (start_date end_date : date) (page query : option string) (v_value : string)
    : result (gmap string pyval) :=
  let common := common_params session_id ad_status country start_date end_date v_value in
  if config_type =? "keyword" then
    if not_given query then
      Raise (ValueError "Query parameter is required for keyword type.")
    else
      Ok (common ∪ <["q" := text_of query]>
                    (<["search_type" := PStr "keyword_exact_phrase"]> ∅))
  else if config_type =? "page" then
    if not_given page then
      Raise (ValueError "Page parameter is required for page type.")
    else
      Ok (common ∪ <["view_all_page_id" := text_of page]>
                    (<["search_type" := PStr "page"]> ∅))
  else
    Raise (ValueError "Invalid config type. Must be 'keyword' or 'page'.").

End QueryBuilder.

(** ** Paginator: [get_ads_data_for_domain] *)

Module Paginator.

(** What [requests.post] does: it raises, or it returns a response with a
    status code and a body. *)
Inductive reply : Type :=
| TransportError (e : exn)
| Response (status_code : Z) (text : string).

(** The local variables of the function, [params] included: the caller's
    dictionary is updated in place. *)
Record state : Type := {
  params : gmap string pyval;
  results : list pyval;
  forward_cursor : pyval;
  collation_token : pyval
}.

(** How one pass through the loop body ends. *)
Inductive control : Type :=
| Next (s : state)
| Break (accumulated : list pyval)
| Throw (e : exn).

(** What a run has done when its fuel is spent: the parameter sets it
    sent, the replies it got, and the result of the function, if the loop
    has ended. *)
Record run : Type := {
  sent : list (gmap string pyval);
  received : list reply;
  outcome : option (result (list pyval))
}.

(** The argument of [lstrip] at line 65. *)
Definition hijack_prefix : string := "for (;;);".

(** The text handed to [json.loads]. *)
Definition decoder_input (text : string) : string := lstrip text hijack_prefix.

(** The text handed to the decoder as the specification words it: the
    body without the fixed prefix when the body starts with it, and the
    body unchanged otherwise. *)
Fixpoint without_prefix (prefix text : string) : option string :=
  match prefix, text with
  | EmptyString, _ => Some text
  | String p prefix', String c text' =>
      if Ascii.eqb p c then without_prefix prefix' text' else None
  | String _ _, EmptyString => None
  end.

Definition spec_decoder_input (text : string) : string :=
  match without_prefix hijack_prefix text with
  | Some rest => rest
  | None => text
  end.

(** [results.extend(v)] takes the members of any iterable: of a list its
    elements, of a dictionary its keys, of a text its characters, of
    bytes their numbers. *)
Definition py_iter (v : pyval) : result (list pyval) :=
  match v with
  | PList l => Ok l
  | PDict kvs => Ok (map (fun kv => PStr (fst kv)) kvs)
  | PStr s => Ok (map PStr (chars s))
  | PBytes s => Ok (map (fun c => PInt (Z.of_nat (nat_of_ascii c))) (list_ascii_of_string s))
  | PNone | PBool _ | PInt _ | PFloat _ => Raise TypeError
  end.

Section Loop.

(** [post n q] is the reply to the [n]-th request of a call when it is
    sent with the parameter set [q] (headers and form body are the same
    at every request of a call).  [loads] is [json.loads]. *)
Variable post : nat -> gmap string pyval -> reply.
Variable loads : string -> result pyval.

(** Lines 56-57. *)
Definition request_params (s : state) : gmap string pyval :=
  if truthy (forward_cursor s) then
    <["collation_token" := collation_token s]>
      (<["forward_cursor" := forward_cursor s]> (params s))
  else params s.

(** Lines 71-79, on a decoded page. *)
Definition after_decode (q : gmap string pyval) (s : state) (data_json : pyval)
    : result control :=
  payload ← py_get data_json "payload" (PDict []);
  found ← py_get payload "results" PNone;
  if truthy found then
    payload ← py_getitem data_json "payload";
    page_results ← py_getitem payload "results";
    items ← py_iter page_results;
    let results' := results s ++ items in
    payload ← py_getitem data_json "payload";
    cursor ← py_get payload "forwardCursor" PNone;
    payload ← py_getitem data_json "payload";
    token ← py_get payload "collationToken" PNone;
    if truthy cursor then
      Ok (Next {| params := q; results := results';
                  forward_cursor := cursor; collation_token := token |})
    else Ok (Break results')
  else Ok (Break (results s)).

(** Lines 62-79: what the body does with the reply to the request it
    sent with the parameter set [q]. *)
Definition handle_reply (q : gmap string pyval) (s : state) (r : reply) : control :=
  match r with
  | TransportError e => Throw e
  | Response _ text =>
      match loads (decoder_input text) with
      | Raise JSONDecodeError => Break (results s)
      | Raise e => Throw e
      | Ok data_json =>
          match after_decode q s data_json with
          | Ok c => c
          | Raise e => Throw e
          end
      end
  end.

(** One pass through the body of [while True], at the [n]-th request. *)
Definition iteration (n : nat) (s : state) : control :=
  let q := request_params s in
  handle_reply q s (post n q).

Fixpoint loop (fuel n : nat) (s : state) : run :=
  match fuel with
  | O => {| sent := []; received := []; outcome := None |}
  | S fuel' =>
      let q := request_params s in
      let r := post n q in
      match iteration n s with
      | Next s' =>
          let rest := loop fuel' (S n) s' in
          {| sent := q :: sent rest; received := r :: received rest;
             outcome := outcome rest |}
      | Break acc => {| sent := [q]; received := [r]; outcome := Some (Ok acc) |}
      | Throw e => {| sent := [q]; received := [r]; outcome := Some (Raise e) |}
      end
  end.

Definition initial (params0 : gmap string pyval) : state :=
  {| params := params0; results := [];
     forward_cursor := PStr ""; collation_token := PStr "" |}.

(** The function, run for at most [fuel] requests. *)
Definition get_ads_data_for_domain (fuel : nat) (params0 : gmap string pyval) : run :=
  loop fuel 0 (initial params0).

(** *** What a page is, read off its reply *)

(** The decoded body of a reply, when there is one. *)
Definition decoded (r : reply) : option pyval :=
  match r with
  | Response _ text =>
      match loads (decoder_input text) with Ok d => Some d | Raise _ => None end
  | TransportError _ => None
  end.

(** The entry [k] of the payload of a decoded page. *)
Definition payload_entry (d : pyval) (k : string) : option pyval :=
  match d with
  | PDict top =>
      match assoc "payload" top with
      | Some (PDict p) => assoc k p
      | _ => None
      end
  | _ => None
  end.

Definition entry_or_none (d : pyval) (k : string) : pyval :=
  match payload_entry d k with Some v => v | None => PNone end.

(** The body is not a JSON document. *)
Definition decode_fails (r : reply) : Prop :=
  exists code text, r = Response code text /\ loads (decoder_input text) = Raise JSONDecodeError.

(** The page makes the function raise: the request itself fails, the
    decoder raises something else than [JSONDecodeError], the document or
    its payload is not an object, or its results cannot be iterated. *)
Inductive raises : reply -> exn -> Prop :=
| raises_transport e : raises (TransportError e) e
| raises_decoder code text e :
    loads (decoder_input text) = Raise e -> e <> JSONDecodeError ->
    raises (Response code text) e
| raises_document code text d :
    loads (decoder_input text) = Ok d -> is_dict d = false ->
    raises (Response code text) AttributeError
| raises_payload code text top p :
    loads (decoder_input text) = Ok (PDict top) ->
    assoc "payload" top = Some p -> is_dict p = false ->
    raises (Response code text) AttributeError
| raises_results code text d found e :
    loads (decoder_input text) = Ok d ->
    payload_entry d "results" = Some found -> truthy found = true ->
    py_iter found = Raise e ->
    raises (Response code text) e.

(** The page decodes to an object whose payload, when it has one, is an
    object. *)
Definition well_shaped (r : reply) (d : pyval) : Prop :=
  decoded r = Some d /\
  exists top, d = PDict top /\
    match assoc "payload" top with Some p => is_dict p = true | None => True end.

(** The results of the page are empty or absent ([null] counts as
    absent). *)
Definition no_results (r : reply) : Prop :=
  exists d, well_shaped r d /\ truthy (entry_or_none d "results") = false.

(** The page has results that can be added to the accumulator. *)
Definition has_results (r : reply) (d : pyval) (items : list pyval) : Prop :=
  well_shaped r d /\ truthy (entry_or_none d "results") = true /\
  py_iter (entry_or_none d "results") = Ok items.

(** The page has results, and no [forwardCursor] or an empty one. *)
Definition no_cursor (r : reply) : Prop :=
  exists d items, has_results r d items /\ truthy (entry_or_none d "forwardCursor") = false.

(** The page has results and a cursor to go on with. *)
Definition more_pages (r : reply) : Prop :=
  exists d items, has_results r d items /\ truthy (entry_or_none d "forwardCursor") = true.

(** The records a page adds to the accumulator. *)
Definition page_items (r : reply) : list pyval :=
  match decoded r with
  | Some d =>
      let found := entry_or_none d "results" in
      match py_iter found with
      | Ok items => if truthy found then items else []
      | Raise _ => []
      end
  | None => []
  end.

(** A page at which the loop ends. *)
Definition final (r : reply) : Prop :=
  decode_fails r \/ no_results r \/ no_cursor r \/ exists e, raises r e.

End Loop.

End Paginator.

(** ** Normaliser: [process_ads_data] and its helpers *)

Module Normalizer.

(** The two components of a parsed URL the program reads. *)
Record url_parts : Type := { netloc : string; query : string }.

(** [urlparse] answers in text for a text argument and in bytes
    otherwise. *)
Record parse_result : Type := { parsed_netloc : pyval; parsed_query : pyval }.

(** What [pd.to_datetime(v, unit='s', errors='coerce')] returns: a
    timestamp (nanoseconds since the epoch), the missing value [NaT], or,
    for a list-like argument, an index, kept here as the list of the texts
    [strftime] makes of its members (none for a missing member). *)
Inductive pd_value : Type :=
| Timestamp (ns : Z)
| NaT
| DatetimeIndex (formatted : list (option string)).

(** The content fields, found on the snapshot or on its first card. *)
Record content : Type := {
  link_url : pyval;
  original_image_url : pyval;
  original_video_url : pyval;
  body : pyval;
  cta_text : pyval;
  title : pyval;
  link_description : pyval
}.

Definition nanoseconds_per_day : Z := 86400000000000.

(** The nanoseconds a pandas timestamp can hold. *)
Definition timestamp_min : Z := - 9223372036854775807.
Definition timestamp_max : Z := 9223372036854775807.

(** [bytes.decode('utf-8')] accepts the well-formed byte sequences of
    UTF-8 and no other. *)
Fixpoint utf8_valid (bs : list nat) : bool :=
  let cont b := andb (128 <=? b)%nat (b <=? 191)%nat in
  match bs with
  | [] => true
  | b0 :: rest =>
      if (b0 <=? 127)%nat then utf8_valid rest
      else if andb (194 <=? b0)%nat (b0 <=? 223)%nat then
        match rest with
        | b1 :: rest' => andb (cont b1) (utf8_valid rest')
        | _ => false
        end
      else if andb (224 <=? b0)%nat (b0 <=? 239)%nat then
        match rest with
        | b1 :: b2 :: rest' =>
            andb (andb (cont b1) (cont b2))
              (andb (if (b0 =? 224)%nat then (160 <=? b1)%nat
                     else if (b0 =? 237)%nat then (b1 <=? 159)%nat else true)
                 (utf8_valid rest'))
        | _ => false
        end
      else if andb (240 <=? b0)%nat (b0 <=? 244)%nat then
        match rest with
        | b1 :: b2 :: b3 :: rest' =>
            andb (andb (cont b1) (andb (cont b2) (cont b3)))
              (andb (if (b0 =? 240)%nat then (144 <=? b1)%nat
                     else if (b0 =? 244)%nat then (b1 <=? 143)%nat else true)
                 (utf8_valid rest'))
        | _ => false
        end
      else false
  end.

Definition bytes_of (s : string) : list nat := map nat_of_ascii (list_ascii_of_string s).

Definition decode_utf8 (b : string) : result string :=
  if utf8_valid (bytes_of b) then Ok b else Raise UnicodeDecodeError.

(** [bytes.decode('ascii', 'strict')], as [urlparse] applies it. *)
Definition decode_ascii (b : string) : result string :=
  if forallb (fun n => (n <=? 127)%nat) (bytes_of b) then Ok b else Raise UnicodeDecodeError.

(** Lines 94-101. *)
Fixpoint ensure_serializable (data : pyval) : result pyval :=
  match data with
  | PBytes b => s ← decode_utf8 b; Ok (PStr s)
  | PDict kvs =>
      kvs' ← (fix items (l : list (string * pyval)) : result (list (string * pyval)) :=
                match l with
                | [] => Ok []
                | kv :: l' =>
                    v' ← ensure_serializable (snd kv);
                    rest ← items l';
                    Ok ((fst kv, v') :: rest)
                end) kvs;
      Ok (PDict kvs')
  | PList l =>
      l' ← (fix members (l : list pyval) : result (list pyval) :=
              match l with
              | [] => Ok []
              | x :: l' =>
                  x' ← ensure_serializable x;
                  rest ← members l';
                  Ok (x' :: rest)
              end) l;
      Ok (PList l')
  | _ => Ok data
  end.

(** [v[0]]. *)
Definition index0 (v : pyval) : result pyval :=
  match v with
  | PList (x :: _) => Ok x
  | PList [] => Raise IndexError
  | PStr s => match chars s with c :: _ => Ok (PStr c) | [] => Raise IndexError end
  | PBytes (String c _) => Ok (PInt (Z.of_nat (nat_of_ascii c)))
  | PBytes EmptyString => Raise IndexError
  | PDict _ => Raise KeyError
  | PNone | PBool _ | PInt _ | PFloat _ => Raise TypeError
  end.

(** The query string as [parse_qsl] reads it (no blank values kept, no
    strict parsing): pieces between ['&'], each cut at its first ['='],
    ['+'] read as a space and percent escapes decoded. *)
Section Urllib.

(** [urlsplit] on text, and [unquote] on a text that holds a ['%']. *)
Variable urlsplit : string -> result url_parts.
Variable unquote_escapes : string -> string.

Definition unquote (s : string) : string :=
  if mem_char "%"%char s then unquote_escapes s else s.

Definition unquote_plus (s : string) : string :=
  unquote (replace_char "+"%char " "%char s).

Definition parse_pair (name_value : string) : list (string * string) :=
  match partition_char "="%char name_value with
  | (name, Some value) =>
      if value =? "" then [] else [(unquote_plus name, unquote_plus value)]
  | (_, None) => []
  end.

Definition parse_qsl (qs : string) : list (string * string) :=
  flat_map parse_pair (if qs =? "" then [] else split_char "&"%char qs).

(** [parsed_result[name].append(value)], or a new entry. *)
Fixpoint add_value (name value : string) (d : list (string * list string))
    : list (string * list string) :=
  match d with
  | [] => [(name, [value])]
  | (n, vs) :: rest =>
      if n =? name then (n, vs ++ [value]) :: rest
      else (n, vs) :: add_value name value rest
  end.

Definition parse_qs (qs : string) : list (string * list string) :=
  fold_left (fun d nv => add_value (fst nv) (snd nv) d) (parse_qsl qs) [].

Fixpoint values_of (key : string) (d : list (string * list string))
    : option (list string) :=
  match d with
  | [] => None
  | (n, vs) :: rest => if n =? key then Some vs else values_of key rest
  end.

(** An argument that is not text is decoded as ASCII when it is true and
    read as [''] when it is false; the result is then given in bytes. *)
Definition urlparse (url : pyval) : result parse_result :=
  match url with
  | PStr s =>
      p ← urlsplit s;
      Ok {| parsed_netloc := PStr (netloc p); parsed_query := PStr (query p) |}
  | _ =>
      text ← (if truthy url then
                match url with
                | PBytes b => decode_ascii b
                | _ => Raise AttributeError
                end
              else Ok "");
      p ← urlsplit text;
      Ok {| parsed_netloc := PBytes (netloc p); parsed_query := PBytes (query p) |}
  end.

(** Lines 85-88.  A query in bytes has bytes for keys, which a text key
    never equals. *)
Definition extract_from_url (url : pyval) (key : string) : result pyval :=
  parsed_url ← urlparse url;
  match parsed_query parsed_url with
  | PStr q =>
      match values_of key (parse_qs q) with
      | Some (v :: _) => Ok (PStr v)
      | Some [] => Raise IndexError
      | None => Ok (PStr "")
      end
  | _ => Ok (PStr "")
  end.

(** Lines 90-92. *)
Definition extract_domain (url : pyval) : result pyval :=
  parsed_url ← urlparse url;
  Ok (parsed_netloc parsed_url).

End Urllib.

Section Normalize.

Variable urlsplit : string -> result url_parts.
Variable unquote_escapes : string -> string.
(** [pd.to_datetime(v, unit='s', errors='coerce')]. *)
Variable to_datetime : pyval -> result pd_value.

(** [.strftime('%Y-%m-%d')]: a timestamp is written through a Python
    [datetime], which exists for the years 1 to 9999 only, and
    [NotImplementedError] is raised for any other year; [NaT] has no
    [strftime]. *)
Definition strftime (t : pd_value) : result pyval :=
  match t with
  | Timestamp ns =>
      let d := civil_from_days (ns / nanoseconds_per_day) in
      if andb (1 <=? year d)%Z (year d <=? 9999)%Z then Ok (PStr (strftime_ymd d))
      else Raise NotImplementedError
  | NaT => Raise (ValueError "NaTType does not support strftime")
  | DatetimeIndex formatted =>
      Ok (PList (map (fun t => match t with
                               | Some text => PStr text
                               | None => PFloat S754_nan
                               end) formatted))
  end.

(** Lines 135 and 136. *)
Definition format_date (raw : pyval) : result pyval :=
  if truthy raw then t ← to_datetime raw; strftime t else Ok PNone.

(** Lines 116 and 117: the condition is read first. *)
Definition first_media (snapshot : pyval) (field key : string) : result pyval :=
  probe ← py_get snapshot field PNone;
  if truthy probe then
    media ← py_get snapshot field (PList [PDict []]);
    first ← index0 media;
    py_get first key (PStr "")
  else Ok (PStr "").

(** Lines 114-130. *)
Definition extract_content (snapshot cards : pyval) : result content :=
  if py_contains snapshot "link_url" then
    link_url ← py_get snapshot "link_url" (PStr "");
    original_image_url ← first_media snapshot "images" "original_image_url";
    original_video_url ← first_media snapshot "videos" "video_hd_url";
    body_field ← py_get snapshot "body" (PDict []);
    markup ← py_get body_field "markup" (PDict []);
    body ← py_get markup "__html" (PStr "");
    cta_text ← py_get snapshot "cta_text" (PStr "");
    title ← py_get snapshot "title" (PStr "");
    link_description ← py_get snapshot "link_description" (PStr "");
    Ok {| link_url := link_url; original_image_url := original_image_url;
          original_video_url := original_video_url; body := body;
          cta_text := cta_text; title := title;
          link_description := link_description |}
  else
    card ← (if truthy cards then index0 cards else Ok (PDict []));
    link_url ← py_get card "link_url" (PStr "");
    original_image_url ← py_get card "original_image_url" (PStr "");
    original_video_url ← py_get card "video_hd_url" (PStr "");
    body ← py_get card "body" (PStr "");
    cta_text ← py_get card "cta_text" (PStr "");
    title ← py_get card "title" (PStr "");
    link_description ← py_get card "link_description" (PStr "");
    Ok {| link_url := link_url; original_image_url := original_image_url;
          original_video_url := original_video_url; body := body;
          cta_text := cta_text; title := title;
          link_description := link_description |}.

(** Lines 111-158: one entry that is not a list. *)
Definition process_record (item : pyval) : result pyval :=
  snapshot ← py_get item "snapshot" (PDict []);
  cards ← py_get snapshot "cards" (PList [PDict []]);
  c ← extract_content snapshot cards;
  creation_time_raw ← py_get snapshot "creation_time" PNone;
  end_date_raw ← py_get item "endDate" PNone;
  creation_time ← format_date creation_time_raw;
  end_date ← format_date end_date_raw;
  adid ← py_get item "adid" (PStr "");
  pageid ← py_get item "pageID" (PStr "");
  pagename ← py_get item "pageName" (PStr "");
  caption ← py_get snapshot "caption" (PStr "");
  collationCount ← py_get item "collationCount" (PInt 0);
  display_format ← py_get snapshot "display_format" (PStr "");
  domain ← extract_domain urlsplit (link_url c);
  keywords ← extract_from_url urlsplit unquote_escapes (link_url c) "sqs";
  atxt ← extract_from_url urlsplit unquote_escapes (link_url c) "atxt";
  ensure_serializable
    (PDict [("adid", adid); ("pageid", pageid); ("pagename", pagename);
            ("link_url", link_url c); ("body", body c); ("cta_text", cta_text c);
            ("title", title c); ("original_image_url", original_image_url c);
            ("original_video_url", original_video_url c); ("caption", caption);
            ("creation_time", creation_time); ("end_date", end_date);
            ("collationCount", collationCount); ("display_format", display_format);
            ("link_description", link_description c); ("domain", domain);
            ("keywords", keywords); ("atxt", atxt)]).

(** Lines 105-109 for one entry: [process_item sub] is what the call
    [process_ads_data([sub_item])] returns. *)
Fixpoint process_item (item : pyval) : result (list pyval) :=
  match item with
  | PList subs =>
      (fix each (l : list pyval) : result (list pyval) :=
         match l with
         | [] => Ok []
         | sub_item :: l' =>
             produced ← process_item sub_item;
             rest ← each l';
             Ok (produced ++ rest)
         end) subs
  | _ => r ← process_record item; Ok [r]
  end.

(** Lines 103-160. *)
Fixpoint process_ads_data (ads_data : list pyval) : result (list pyval) :=
  match ads_data with
  | [] => Ok []
  | item :: rest =>
      produced ← process_item item;
      more ← process_ads_data rest;
      Ok (produced ++ more)
  end.

End Normalize.

(** *** Notions the properties are stated with *)

(** The comprehensions of lines 98 and 100 on their own. *)
Fixpoint ensure_items (l : list (string * pyval)) : result (list (string * pyval)) :=
  match l with
  | [] => Ok []
  | kv :: l' =>
      v' ← ensure_serializable (snd kv);
      rest ← ensure_items l';
      Ok ((fst kv, v') :: rest)
  end.

Fixpoint ensure_members (l : list pyval) : result (list pyval) :=
  match l with
  | [] => Ok []
  | x :: l' =>
      x' ← ensure_serializable x;
      rest ← ensure_members l';
      Ok (x' :: rest)
  end.

(** A value without [bytes] in it, as every decoded JSON document is. *)
Fixpoint no_bytes (v : pyval) : bool :=
  match v with
  | PBytes _ => false
  | PList l => forallb no_bytes l
  | PDict kvs => forallb (fun kv => no_bytes (snd kv)) kvs
  | _ => true
  end.

(** The keys of a canonical record, in the order of lines 139-156. *)
Definition canonical_keys : list string :=
  ["adid"; "pageid"; "pagename"; "link_url"; "body"; "cta_text"; "title";
   "original_image_url"; "original_video_url"; "caption"; "creation_time";
   "end_date"; "collationCount"; "display_format"; "link_description";
   "domain"; "keywords"; "atxt"].

(** A canonical record: a dictionary with exactly those keys and no
    [bytes] in its values. *)
Definition is_canonical (r : pyval) : bool :=
  match r with
  | PDict kvs =>
      andb (bool_decide (map fst kvs = canonical_keys))
           (forallb (fun kv => no_bytes (snd kv)) kvs)
  | _ => false
  end.

(** The value of a field of a record ([None] when it has no such
    field). *)
Definition field (r : pyval) (k : string) : pyval :=
  match r with
  | PDict kvs => match assoc k kvs with Some v => v | None => PNone end
  | _ => PNone
  end.

(** The canonical record that has an identifier and a collation count
    and the default in every other field. *)
Definition blank_record (adid collationCount : pyval) : pyval :=
  PDict [("adid", adid); ("pageid", PStr ""); ("pagename", PStr "");
         ("link_url", PStr ""); ("body", PStr ""); ("cta_text", PStr "");
         ("title", PStr ""); ("original_image_url", PStr "");
         ("original_video_url", PStr ""); ("caption", PStr "");
         ("creation_time", PNone); ("end_date", PNone);
         ("collationCount", collationCount); ("display_format", PStr "");
         ("link_description", PStr ""); ("domain", PStr "");
         ("keywords", PStr ""); ("atxt", PStr "")].

Definition reduced (r : pyval) : pyval :=
  blank_record (field r "adid") (field r "collationCount").

(** The values [parse_qsl] gives for a key, in the order of the query. *)
Definition values_in (key : string) (pairs : list (string * string)) : list string :=
  map snd (List.filter (fun nv => fst nv =? key) pairs).

(** The days a pandas timestamp can fall on: 1677-09-21 to 2262-04-11. *)
Definition first_day : Z := -106752.
Definition last_day : Z := 106751.

(** A date written with a year of four digits. *)
Definition four_digit_date (d : date) : bool :=
  andb (andb (1000 <=? year d)%Z (year d <=? 9999)%Z)
       (andb (andb (1 <=? month d)%Z (month d <=? 12)%Z)
             (andb (1 <=? day d)%Z (day d <=? 31)%Z)).

End Normalizer.

(** ** Batch driver: the loop of [main] over the items to scrape *)

Module Driver.

Import QueryBuilder Paginator.

Section Batch.

(** [post item n q]: the reply to the [n]-th request made for [item]. *)
Variable post : string -> nat -> gmap string pyval -> reply.
Variable loads : string -> result pyval.
Variables (scraping_mode session_id ad_status country v_value : string).
Variables (start_date end_date : date).

(** Lines 250-256. *)
Definition item_params (item : string) : result (gmap string pyval) :=
  get_params_config (if scraping_mode =? "Keywords" then "keyword" else "page")
    session_id ad_status country start_date end_date
    (if scraping_mode =? "Page IDs" then Some item else None)
    (if scraping_mode =? "Keywords" then Some item else None)
    v_value.

(** Lines 244-258: nothing is caught, so an exception of one item ends
    the loop.  Every call may send [fuel] requests. *)
Fixpoint scrape_items (fuel : nat) (items_to_scrape : list string) (ads_data : list pyval)
    : option (result (list pyval)) :=
  match items_to_scrape with
  | [] => Some (Ok ads_data)
  | item :: rest =>
      match item_params item with
      | Raise e => Some (Raise e)
      | Ok params =>
          match outcome (get_ads_data_for_domain (post item) loads fuel params) with
          | None => None
          | Some (Raise e) => Some (Raise e)
          | Some (Ok records) => scrape_items fuel rest (ads_data ++ records)
          end
      end
  end.

End Batch.

End Driver.

(** ** Input handling of [main]: the form body and the items to scrape *)

Module Inputs.

Import QueryBuilder Paginator Normalizer.

(** [str.isspace] on one character, given by its UTF-8 bytes: the
    characters U+0009-000D, U+001C-001F, U+0020, U+0085, U+00A0, U+1680,
    U+2000-200A, U+2028, U+2029, U+202F, U+205F and U+3000. *)
Definition is_space (ch : string) : bool :=
  match bytes_of ch with
  | [b] => orb (andb (9 <=? b)%nat (b <=? 13)%nat)
               (andb (28 <=? b)%nat (b <=? 32)%nat)
  | [194; b] => orb (b =? 133)%nat (b =? 160)%nat
  | [225; 154; 128] => true
  | [226; 128; b] =>
      orb (andb (128 <=? b)%nat (b <=? 138)%nat)
          (orb (b =? 168)%nat (orb (b =? 169)%nat (b =? 175)%nat))
  | [226; 129; 159] => true
  | [227; 128; 128] => true
  | _ => false
  end.

Fixpoint drop_spaces (l : list string) : list string :=
  match l with
  | ch :: rest => if is_space ch then drop_spaces rest else l
  | [] => []
  end.

(** [s.strip()]: the text without the white space at its two ends. *)
Definition strip_chars (l : list string) : list string :=
  rev (drop_spaces (rev (drop_spaces l))).

Definition strip (s : string) : string := String.concat "" (strip_chars (chars s)).

(** Line 245: [[item.strip() for item in input_data.split(',') if item.strip()]]. *)
Definition items_to_scrape (input_data : string) : list string :=
  List.filter (fun item => negb (item =? ""))
    (map strip (split_char ","%char input_data)).

(** [d[k] = v] on a dictionary kept as the list of its items: the value
    is replaced where the key stands, or the item is added at the end. *)
Fixpoint dict_set (k v : string) (d : list (string * string)) : list (string * string) :=
  match d with
  | [] => [(k, v)]
  | (k', v') :: rest =>
      if k' =? k then (k', v) :: rest else (k', v') :: dict_set k v rest
  end.

Fixpoint dict_get (k : string) (d : list (string * string)) : option string :=
  match d with
  | [] => None
  | (k', v) :: rest => if k' =? k then Some v else dict_get k rest
  end.

Section FormBody.

Variable loads : string -> result pyval.
Variable unquote_escapes : string -> string.

(** Lines 14-15: [dict(parse_qsl(urlencoded_str))]. *)
Definition parse_urlencoded_to_dict (urlencoded_str : string) : list (string * string) :=
  fold_left (fun d nv => dict_set (fst nv) (snd nv) d)
    (parse_qsl unquote_escapes urlencoded_str) [].

(** Lines 203-208: the form body sent with every request. *)
Definition data_dict (data_format data_input : string) : result pyval :=
  if data_input =? "" then Ok (PDict [])
  else if data_format =? "JSON" then
    match loads data_input with
    | Raise JSONDecodeError => Ok (PDict [])
    | other => other
    end
  else
    Ok (PDict (map (fun kv => (fst kv, PStr (snd kv)))
                 (parse_urlencoded_to_dict data_input))).

End FormBody.

End Inputs.

(** ** Export: the rows [save_to_excel] builds *)

Module Exporter.

(** [except ValueError] also catches the exceptions derived from it. *)
Definition is_value_error (e : exn) : bool :=
  match e with
  | ValueError _ | JSONDecodeError | UnicodeDecodeError => true
  | _ => false
  end.

Section Rows.

(** [days_between end_date creation_time] is
    [(pd.to_datetime(end_date) - pd.to_datetime(creation_time)).days]. *)
Variable days_between : pyval -> pyval -> result pyval.

(** Lines 168-173. *)
Definition days_running (creation_time end_date : pyval) : result pyval :=
  if andb (truthy creation_time) (truthy end_date) then
    match days_between end_date creation_time with
    | Ok days => Ok days
    | Raise e => if is_value_error e then Ok PNone else Raise e
    end
  else Ok PNone.

(** Lines 165-184: the row of one record. *)
Definition excel_row (ad : pyval) : result pyval :=
  creation_time ← py_get ad "creation_time" PNone;
  end_date ← py_get ad "end_date" PNone;
  days ← days_running creation_time end_date;
  page_name ← py_get ad "pagename" (PStr "");
  link ← py_get ad "link_url" (PStr "");
  title ← py_get ad "title" (PStr "");
  image ← py_get ad "original_image_url" PNone;
  media ← (if truthy image then Ok image
           else py_get ad "original_video_url" (PStr ""));
  count ← py_get ad "collationCount" (PInt 0);
  Ok (PDict [("Page Name", page_name); ("Link URL", link); ("Title", title);
             ("Original Image/Video URL", media); ("No of Days Running", days);
             ("Collation Count", count); ("Creation Time", creation_time);
             ("End Date", end_date)]).

(** Lines 163-184: the list [ads_details], before it is sorted and
    written. *)
Fixpoint ads_details (data : list pyval) : result (list pyval) :=
  match data with
  | [] => Ok []
  | ad :: rest =>
      row ← excel_row ad;
      rows ← ads_details rest;
      Ok (row :: rows)
  end.

End Rows.

End Exporter.

(** ** Further notions the properties are stated with *)

Module Notions.

Import Paginator Normalizer.

(** The single entries of an entry, depth first: a list stands for the
    single entries of its members, anything else for itself. *)
Fixpoint flatten (item : pyval) : list pyval :=
  match item with
  | PList subs => flat_map flatten subs
  | _ => [item]
  end.

Definition is_text (v : pyval) : bool :=
  match v with PStr _ => true | _ => false end.

Definition is_bytes (v : pyval) : bool :=
  match v with PBytes _ => true | _ => false end.

(** Every [bytes] in the value is well-formed UTF-8. *)
Fixpoint decodable (v : pyval) : bool :=
  match v with
  | PBytes b => utf8_valid (bytes_of b)
  | PList l => forallb decodable l
  | PDict kvs => forallb (fun kv => decodable (snd kv)) kvs
  | _ => true
  end.

(** Two replies that differ at most in their status code. *)
Definition same_body (r1 r2 : reply) : Prop :=
  match r1, r2 with
  | Response _ t1, Response _ t2 => t1 = t2
  | TransportError e1, TransportError e2 => e1 = e2
  | _, _ => False
  end.

End Notions.

(** ** Reference behaviour of the library functions

    Instances of the section variables on which the program can be run:
    they are used for the concrete records and replies below, and nowhere
    in the general theorems. *)

Module Reference.

Import QueryBuilder Normalizer Paginator.

Definition is_alpha (c : ascii) : bool :=
  let n := nat_of_ascii c in
  orb (andb (65 <=? n)%nat (n <=? 90)%nat) (andb (97 <=? n)%nat (n <=? 122)%nat).

Definition is_scheme_char (c : ascii) : bool :=
  let n := nat_of_ascii c in
  orb (is_alpha c) (orb (andb (48 <=? n)%nat (n <=? 57)%nat) (mem_char c "+-.")).

(** The text up to the first character of [stops], and the text from
    there on. *)
Fixpoint span_until (stops : string) (s : string) : string * string :=
  match s with
  | EmptyString => (EmptyString, EmptyString)
  | String c rest =>
      if mem_char c stops then (EmptyString, s)
      else let '(before, after) := span_until stops rest in (String c before, after)
  end.

(** The generic split of a URL, [scheme://netloc/path?query#fragment],
    as [urlsplit] makes it on a text without control characters or
    leading blanks; the checks of bracketed and non-ASCII hosts, which can
    make [urlsplit] raise, are not made. *)
Definition urlsplit_generic (url : string) : result url_parts :=
  let rest :=
    match partition_char ":"%char url with
    | (String c scheme, Some after) =>
        if andb (is_alpha c) (forallb is_scheme_char (list_ascii_of_string scheme))
        then after else url
    | _ => url
    end in
  let '(host, rest) :=
    match rest with
    | String "/" (String "/" after) => span_until "/?#" after
    | _ => (EmptyString, rest)
    end in
  let '(rest, _) := partition_char "#"%char rest in
  let '(_, q) := partition_char "?"%char rest in
  Ok {| netloc := host; query := match q with Some q => q | None => EmptyString end |}.

(** Texts without ['%'] are all the program is run on below. *)
Definition unquote_nothing (s : string) : string := s.

(** The conversion of integer epoch seconds: a timestamp when the
    nanoseconds fit 64 bits, and [NaT] otherwise, which is also the answer
    for a text that is not a number.  Below it is run on integers and on
    the text [abc] only. *)
Definition to_datetime_epoch (v : pyval) : result pd_value :=
  match v with
  | PInt n =>
      let ns := (n * 1000000000)%Z in
      if andb (timestamp_min <=? ns)%Z (ns <=? timestamp_max)%Z
      then Ok (Timestamp ns) else Ok NaT
  | _ => Ok NaT
  end.

(** A decoder given by the table of the documents it knows; any other
    text is not JSON to it.  The bodies of the replies below are named
    rather than spelled out. *)
Fixpoint loads_table (table : list (string * pyval)) (text : string) : result pyval :=
  match table with
  | [] => Raise JSONDecodeError
  | (t, d) :: rest => if t =? text then Ok d else loads_table rest text
  end.

Definition page (entries : list (string * pyval)) : pyval :=
  PDict [("payload", PDict entries)].

Definition ad (adid : string) : pyval := PDict [("adid", PStr adid)].

(** Three pages: two with a cursor, then one without. *)
Definition three_pages : list (string * pyval) :=
  [("{page 1}", page [("results", PList [ad "1"; ad "2"]);
                      ("forwardCursor", PStr "c1"); ("collationToken", PStr "t1")]);
   ("{page 2}", page [("results", PList [ad "3"]);
                      ("forwardCursor", PStr "c2"); ("collationToken", PStr "t2")]);
   ("{page 3}", page [("results", PList [ad "4"])])].

(** The server answers by the cursor it is sent. *)
Definition serve_three (n : nat) (q : gmap string pyval) : reply :=
  match q !! "forward_cursor" with
  | None => Response 200 "for (;;);{page 1}"
  | Some (PStr "c1") => Response 200 "for (;;);{page 2}"
  | Some (PStr "c2") => Response 200 "for (;;);{page 3}"
  | Some _ => Response 500 "<html>"
  end.

(** A server that never runs out of pages. *)
Definition serve_endless (n : nat) (q : gmap string pyval) : reply :=
  Response 200 "for (;;);{page 1}".

(** A page with one record and an empty cursor. *)
Definition empty_cursor_page : list (string * pyval) :=
  [("{page}", page [("results", PList [ad "1"]); ("forwardCursor", PStr "")])].

Definition serve_empty_cursor (n : nat) (q : gmap string pyval) : reply :=
  Response 200 "for (;;);{page}".

(** A server that cannot be reached. *)
Definition serve_unreachable (n : nat) (q : gmap string pyval) : reply :=
  TransportError (RequestException "ConnectionError").

(** The first item of a batch cannot be fetched, the others can. *)
Definition serve_batch (item : string) : nat -> gmap string pyval -> reply :=
  if item =? "first" then serve_unreachable else serve_three.

(** One page, then a body that is not JSON. *)
Definition serve_then_garbage (n : nat) (q : gmap string pyval) : reply :=
  match n with
  | O => Response 200 "for (;;);{page 1}"
  | _ => Response 502 "<html>Bad Gateway</html>"
  end.

Definition keyword_params (query : string) : gmap string pyval :=
  match get_params_config "keyword" "session" "Active" "US"
          {| year := 2024; month := 1; day := 2 |}
          {| year := 2024; month := 3; day := 4 |} None (Some query) "2c4a00" with
  | Ok p => p
  | Raise _ => ∅
  end.

(** The two entries of the scenarios of the specification, and an entry
    whose creation time is not a number. *)
Definition flat_entry : pyval :=
  PDict [("snapshot", PDict [("link_url", PStr "https://x.com/p?sqs=k1");
                             ("title", PStr "T")]);
         ("adid", PStr "1")].

Definition carded_entry : pyval :=
  PDict [("snapshot", PDict [("cards", PList [PDict [("link_url", PStr "https://y.com");
                                                     ("body", PStr "hi")]])]);
         ("adid", PStr "2")].

Definition tagged_entry : pyval :=
  PDict [("snapshot", PDict [("link_url", PStr "https://z.com/l?sqs=abc&atxt=def");
                             ("creation_time", PInt 1700000000)]);
         ("adid", PStr "3"); ("endDate", PInt 0)].

Definition undated_entry : pyval :=
  PDict [("snapshot", PDict [("creation_time", PStr "abc")]); ("adid", PStr "4")].

(** [process_ads_data] on these library functions. *)
Definition normalize : list pyval -> result (list pyval) :=
  process_ads_data urlsplit_generic unquote_nothing to_datetime_epoch.

(** The records it returns (none when it raises). *)
Definition records_of (ads_data : list pyval) : list pyval :=
  match normalize ads_data with
  | Ok records => records
  | Raise _ => []
  end.

End Reference.

(** ** Further servers and records for the examples *)

Module Samples.

Import QueryBuilder Normalizer Paginator Reference.

(** The server of the three pages, answering with another status code. *)
Definition with_status (code : Z) (post : nat -> gmap string pyval -> reply)
    (n : nat) (q : gmap string pyval) : reply :=
  match post n q with
  | Response _ text => Response code text
  | TransportError e => TransportError e
  end.

(** A difference of dates given by the table of the pairs of texts it
    knows; any other argument is not a date to it. *)
Fixpoint days_between_table (table : list (string * string * Z)) (later earlier : pyval)
    : result pyval :=
  match table with
  | [] => Raise (ValueError "Unknown datetime string format")
  | (l, e, days) :: rest =>
      match later, earlier with
      | PStr l', PStr e' =>
          if andb (l =? l') (e =? e') then Ok (PInt days)
          else days_between_table rest later earlier
      | _, _ => Raise (ValueError "Unknown datetime string format")
      end
  end.

Definition date_table : list (string * string * Z) :=
  [("2024-03-04", "2024-01-02", 62%Z)].

(** The record of the tagged entry, and a record with its two dates. *)
Definition tagged_record : pyval :=
  Eval vm_compute in
    match normalize [tagged_entry] with
    | Ok [r] => r
    | _ => PNone
    end.

Definition dated_record : pyval :=
  PDict [("pagename", PStr "Shop"); ("original_image_url", PStr "");
         ("original_video_url", PStr "https://v.example/1.mp4");
         ("creation_time", PStr "2024-01-02"); ("end_date", PStr "2024-03-04")].

End Samples.

(** * Properties *)

Import QueryBuilder Paginator Normalizer Notions.

(** ** The result monad *)

Lemma bind_ok {A B} (m : result A) (f : A -> result B) (b : B) :
  m ≫= f = Ok b <-> exists a, m = Ok a /\ f a = Ok b.
Proof.
  destruct m as [a|e]; simpl; split.
  - intros H. exists a. auto.
  - intros (a' & Ha & Hf). congruence.
  - discriminate.
  - intros (a' & Ha & _). discriminate.
Qed.

Lemma is_ok_false {A} (r : result A) : is_ok r = false <-> exists e, r = Raise e.
Proof.
  destruct r; simpl; split; try discriminate; eauto.
  intros [e' H]. discriminate.
Qed.

(** ** Query builder *)

(** Membership of a key in a list of keys written out. *)
Ltac key_listed :=
  repeat first [apply list_elem_of_here | apply list_elem_of_further].

Ltac key_not_listed :=
  let H := fresh in
  intros H;
  repeat (apply elem_of_cons in H as [H|H]; [discriminate H|]);
  apply elem_of_nil in H; exact H.

Section QueryBuilderFacts.

Variables (session_id ad_status country v_value : string).
Variables (start_date end_date : date).

Let build (config_type : string) (page query : option string) :=
  get_params_config config_type session_id ad_status country
    start_date end_date page query v_value.

Lemma common_params_lookup_fresh (k : string) :
  k ∉ ["session_id"; "count"; "active_status"; "ad_type"; "country[0]";
       "media_type"; "start_date"; "end_date"; "v"] ->
  common_params session_id ad_status country start_date end_date v_value !! k = None.
Proof.
  intros Hk. unfold common_params.
  repeat (rewrite lookup_insert_ne; [| intros <-; apply Hk; key_listed]).
  apply lookup_empty.
Qed.

(** C9 (as amended).  [get_params_config] raises exactly when the type
    is ['keyword'] and no query is given, the type is ['page'] and no
    page is given, or the type is neither of the two; what it raises is
    always a [ValueError]; and with the query (the page) supplied it
    returns a parameter set that holds it. *)
Theorem get_params_config_raises_iff (config_type : string) (page query : option string) :
  (is_ok (build config_type page query) = false <->
     (config_type = "keyword" /\ not_given query = true) \/
     (config_type = "page" /\ not_given page = true) \/
     (config_type <> "keyword" /\ config_type <> "page")) /\
  (forall e, build config_type page query = Raise e -> exists msg, e = ValueError msg) /\
  (forall p, build config_type page query = Ok p ->
     (config_type = "keyword" /\ p !! "q" = Some (text_of query) /\
      p !! "search_type" = Some (PStr "keyword_exact_phrase")) \/
     (config_type = "page" /\ p !! "view_all_page_id" = Some (text_of page) /\
      p !! "search_type" = Some (PStr "page"))).
Proof.
  unfold build, get_params_config.
  destruct (String.eqb_spec config_type "keyword") as [Hk|Hk].
  - subst config_type. destruct (not_given query) eqn:Hq; simpl.
    + split; [|split].
      * split; auto.
      * intros e [= <-]. eauto.
      * discriminate.
    + split; [|split].
      * split; [discriminate|].
        intros [[_ H]|[[H _]|[H _]]]; congruence.
      * discriminate.
      * intros p [= <-]. left. split; [reflexivity|].
        split; (rewrite lookup_union_r by (apply common_params_lookup_fresh; key_not_listed));
          reflexivity.
  - destruct (String.eqb_spec config_type "page") as [Hp|Hp].
    + subst config_type. destruct (not_given page) eqn:Hq; simpl.
      * split; [|split].
        -- split; auto.
        -- intros e [= <-]. eauto.
        -- discriminate.
      * split; [|split].
        -- split; [discriminate|].
           intros [[H _]|[[_ H]|[_ H]]]; congruence.
        -- discriminate.
        -- intros p [= <-]. right. split; [reflexivity|].
           split; (rewrite lookup_union_r by (apply common_params_lookup_fresh; key_not_listed));
             reflexivity.
    + simpl. split; [|split].
      * split; auto.
      * intros e [= <-]. eauto.
      * discriminate.
Qed.

(** The parameter set of a first request holds no cursor field. *)
Lemma get_params_config_no_cursor (config_type : string) (page query : option string) p :
  build config_type page query = Ok p ->
  p !! "forward_cursor" = None /\ p !! "collation_token" = None.
Proof.
  unfold build, get_params_config. intros H.
  destruct (config_type =? "keyword"); [destruct (not_given query); [discriminate|]|
    destruct (config_type =? "page"); [destruct (not_given page); [discriminate|]|discriminate]];
    injection H as <-;
    split; apply lookup_union_None; split;
      try (apply common_params_lookup_fresh; key_not_listed); reflexivity.
Qed.

End QueryBuilderFacts.

(** A keyword search: the parameter set holds the query. *)
Lemma keyword_search_params :
  exists p,
    get_params_config "keyword" "s" "Both" "US"
      {| year := 2024; month := 1; day := 2 |} {| year := 2024; month := 3; day := 4 |}
      None (Some "shoes") "2c4a00" = Ok p /\
    p !! "q" = Some (PStr "shoes") /\
    p !! "search_type" = Some (PStr "keyword_exact_phrase") /\
    p !! "active_status" = Some (PStr "ALL").
Proof.
  eexists. split; [reflexivity|].
  destruct (proj2 (proj2 (get_params_config_raises_iff "s" "Both" "US" "2c4a00"
                            {| year := 2024; month := 1; day := 2 |}
                            {| year := 2024; month := 3; day := 4 |}
                            "keyword" None (Some "shoes"))) _ eq_refl)
    as [(_ & Hq & Hs)|(H & _)]; [|discriminate H].
  split; [exact Hq|]. split; [exact Hs|reflexivity].
Defined.

(** C9 (as stated) fails: with a type that is neither ['keyword'] nor
    ['page'] the function raises although a query and a page are given. *)
Lemma get_params_config_invalid_type :
  get_params_config "ads" "s" "Active" "US"
    {| year := 2024; month := 1; day := 2 |} {| year := 2024; month := 3; day := 4 |}
    (Some "123") (Some "shoes") "2c4a00"
  = Raise (ValueError "Invalid config type. Must be 'keyword' or 'page'.") /\
  ~ (("ads" = "keyword" /\ not_given (Some "shoes") = true) \/
     ("ads" = "page" /\ not_given (Some "123") = true)).
Proof.
  split; [reflexivity|].
  intros [[H _]|[H _]]; discriminate.
Qed.

(** ** Paginator *)

Section PaginatorFacts.

Variable post : nat -> gmap string pyval -> reply.
Variable loads : string -> result pyval.

Local Abbreviation handle_reply := (handle_reply loads).
Local Abbreviation decoded := (decoded loads).
Local Abbreviation more_pages := (more_pages loads).
Local Abbreviation final := (final loads).
Local Abbreviation page_items := (page_items loads).
Local Abbreviation loop := (loop post loads).

(** *** One reply *)

Lemma decoded_response (r : reply) (d : pyval) :
  decoded r = Some d ->
  exists code text, r = Response code text /\ loads (decoder_input text) = Ok d.
Proof.
  destruct r as [e|code text]; simpl; [discriminate|].
  destruct (loads (decoder_input text)) eqn:Hl; [|discriminate].
  intros [= <-]. eauto.
Qed.

Lemma handle_decode_failure q s r :
  decode_fails loads r -> handle_reply q s r = Break (results s).
Proof.
  intros (code & text & -> & Hl). simpl. rewrite Hl. reflexivity.
Qed.

Lemma handle_no_results q s r :
  no_results loads r -> handle_reply q s r = Break (results s).
Proof.
  intros (d & (Hd & top & -> & Hshape) & Hfalse).
  apply decoded_response in Hd as (code & text & -> & Hl).
  unfold entry_or_none, payload_entry in Hfalse.
  simpl. rewrite Hl. unfold after_decode. simpl.
  destruct (assoc "payload" top) as [p|]; simpl.
  - destruct p; try discriminate Hshape. simpl.
    destruct (assoc "results" kvs); simpl in *; [rewrite Hfalse|]; reflexivity.
  - reflexivity.
Qed.

Lemma handle_results q s r d items :
  has_results loads r d items ->
  handle_reply q s r =
    if truthy (entry_or_none d "forwardCursor") then
      Next {| params := q; results := results s ++ items;
              forward_cursor := entry_or_none d "forwardCursor";
              collation_token := entry_or_none d "collationToken" |}
    else Break (results s ++ items).
Proof.
  intros ((Hd & top & -> & Hshape) & Htrue & Hiter).
  apply decoded_response in Hd as (code & text & -> & Hl).
  unfold entry_or_none, payload_entry in *.
  simpl. rewrite Hl. unfold after_decode. simpl.
  destruct (assoc "payload" top) as [p|]; simpl in *; [|discriminate].
  destruct p; try discriminate Hshape. simpl.
  destruct (assoc "results" kvs) as [found|]; simpl in *; [|discriminate].
  rewrite Htrue. simpl. rewrite Hiter. simpl.
  match goal with |- context [truthy ?c] => destruct (truthy c) end; reflexivity.
Qed.

Lemma handle_raises q s r e :
  raises loads r e -> handle_reply q s r = Throw e.
Proof.
  intros H. destruct H as [e|code text e Hl Hne|code text d Hl Hnd
                           |code text top p Hl Hp Hnd|code text d found e Hl Hf Ht Hi].
  - reflexivity.
  - simpl. rewrite Hl. destruct e; try reflexivity. congruence.
  - simpl. rewrite Hl. unfold after_decode.
    destruct d; try reflexivity. discriminate.
  - simpl. rewrite Hl. unfold after_decode. simpl. rewrite Hp.
    destruct p; try reflexivity. discriminate.
  - simpl. rewrite Hl. unfold after_decode.
    unfold payload_entry in Hf.
    destruct d as [| | | | | | |top]; try discriminate.
    simpl. destruct (assoc "payload" top) as [p|]; [|discriminate].
    destruct p as [| | | | | | |pl]; try discriminate.
    simpl. rewrite Hf. simpl. rewrite Ht. simpl. rewrite Hi. reflexivity.
Qed.

(** Every reply is of one of the five kinds. *)
Lemma reply_kinds (r : reply) : more_pages r \/ final r.
Proof.
  destruct r as [e|code text].
  { right. right. right. right. exists e. constructor. }
  destruct (loads (decoder_input text)) as [d|e] eqn:Hl.
  2:{ right. destruct e;
        try (right; right; right; eexists; eapply raises_decoder; [exact Hl|discriminate]).
      left. exists code, text. auto. }
  destruct (is_dict d) eqn:Hd.
  2:{ right. right. right. right. eexists. eapply raises_document; eauto. }
  destruct d as [| | | | | | |top]; try discriminate.
  destruct (assoc "payload" top) as [p|] eqn:Hp.
  2:{ right. right. left. exists (PDict top). split.
      - split; [simpl; rewrite Hl; reflexivity|].
        exists top. rewrite Hp. auto.
      - unfold entry_or_none, payload_entry. rewrite Hp. reflexivity. }
  destruct (is_dict p) eqn:Hdp.
  2:{ right. right. right. right. eexists. eapply raises_payload; eauto. }
  destruct p as [| | | | | | |pl]; try discriminate.
  assert (Hshape : well_shaped loads (Response code text) (PDict top)).
  { split; [simpl; rewrite Hl; reflexivity|]. exists top. rewrite Hp. auto. }
  destruct (truthy (entry_or_none (PDict top) "results")) eqn:Ht.
  2:{ right. right. left. exists (PDict top). auto. }
  destruct (py_iter (entry_or_none (PDict top) "results")) as [items|e] eqn:Hi.
  2:{ right. right. right. right. exists e.
      unfold entry_or_none in Ht, Hi.
      destruct (payload_entry (PDict top) "results") as [found|] eqn:Hf; [|discriminate].
      eapply raises_results; eauto. }
  destruct (truthy (entry_or_none (PDict top) "forwardCursor")) eqn:Hc.
  - left. exists (PDict top), items.
    split; [split; [exact Hshape|split; assumption]|assumption].
  - right. right. right. left. exists (PDict top), items.
    split; [split; [exact Hshape|split; assumption]|assumption].
Qed.

Lemma handle_more_pages q s r :
  more_pages r -> exists s', handle_reply q s r = Next s' /\
    params s' = q /\ results s' = results s ++ page_items r.
Proof.
  intros (d & items & Hres & Hc).
  rewrite (handle_results q s r d items Hres), Hc.
  eexists. split; [reflexivity|]. split; [reflexivity|]. simpl.
  destruct Hres as ((Hd & _) & Ht & Hi).
  unfold Paginator.page_items. rewrite Hd, Hi, Ht. reflexivity.
Qed.

Lemma handle_final q s r :
  final r ->
  (handle_reply q s r = Break (results s ++ page_items r) /\ ~ exists e, raises loads r e) \/
  (exists e, handle_reply q s r = Throw e /\ raises loads r e).
Proof.
  intros [H|[H|[H|[e H]]]].
  - left. rewrite (handle_decode_failure q s r H).
    destruct H as (code & text & -> & Hl). split.
    + unfold Paginator.page_items. simpl. rewrite Hl. rewrite app_nil_r. reflexivity.
    + intros [e He]. apply (handle_raises q s) in He. simpl in He. rewrite Hl in He.
      discriminate.
  - left. pose proof (handle_no_results q s r H) as Hh. split.
    + rewrite Hh. destruct H as (d & (Hd & _) & Hf).
      unfold Paginator.page_items. rewrite Hd. simpl. rewrite Hf.
      destruct (py_iter _); rewrite app_nil_r; reflexivity.
    + intros [e He]. apply (handle_raises q s) in He. congruence.
  - left. destruct H as (d & items & Hres & Hc).
    pose proof (handle_results q s r d items Hres) as Hh. rewrite Hc in Hh. split.
    + rewrite Hh. destruct Hres as ((Hd & _) & Ht & Hi).
      unfold Paginator.page_items. rewrite Hd, Hi, Ht. reflexivity.
    + intros [e He]. apply (handle_raises q s) in He. congruence.
  - right. exists e. split; [apply handle_raises|]; assumption.
Qed.

(** The kinds do not overlap: a page with more to come is not final. *)
Lemma more_pages_not_final (r : reply) : more_pages r -> final r -> False.
Proof.
  intros Hm Hf.
  destruct (handle_more_pages ∅ (initial ∅) r Hm) as (s' & Hs' & _).
  destruct (handle_final ∅ (initial ∅) r Hf) as [[H _]|(e & H & _)]; congruence.
Qed.

End PaginatorFacts.

Section PaginationRuns.

Variable post : nat -> gmap string pyval -> reply.
Variable loads : string -> result pyval.

Local Abbreviation decoded := (decoded loads).
Local Abbreviation more_pages := (more_pages loads).
Local Abbreviation final := (final loads).
Local Abbreviation raises := (raises loads).
Local Abbreviation page_items := (page_items loads).
Local Abbreviation iteration := (iteration post loads).
Local Abbreviation loop := (loop post loads).
Local Abbreviation get_ads_data_for_domain := (get_ads_data_for_domain post loads).

(** How a pass through the body ends, by the kind of its reply. *)
Lemma iteration_next n s s' :
  iteration n s = Next s' ->
  let q := request_params s in
  exists d, decoded (post n q) = Some d /\ more_pages (post n q) /\
    truthy (entry_or_none d "forwardCursor") = true /\
    s' = {| params := q; results := results s ++ page_items (post n q);
            forward_cursor := entry_or_none d "forwardCursor";
            collation_token := entry_or_none d "collationToken" |}.
Proof.
  intros H. cbv zeta. unfold Paginator.iteration in H.
  set (q := request_params s) in *.
  destruct (reply_kinds loads (post n q)) as [Hm|Hf].
  - pose proof Hm as (d & items & Hres & Hc).
    rewrite (handle_results loads q s _ d items Hres), Hc in H.
    injection H as <-. exists d.
    destruct Hres as ((Hd & _) & Ht & Hi).
    split; [exact Hd|]. split; [exact Hm|]. split; [exact Hc|].
    unfold Paginator.page_items. rewrite Hd, Hi, Ht. reflexivity.
  - destruct (handle_final loads q s _ Hf) as [[H' _]|(e & H' & _)]; congruence.
Qed.

Lemma iteration_more_pages n s :
  more_pages (post n (request_params s)) -> exists s', iteration n s = Next s'.
Proof.
  intros Hm. destruct (handle_more_pages loads (request_params s) s _ Hm) as (s' & H & _).
  exists s'. exact H.
Qed.

(** The shape of every run: either the fuel is spent on pages that all
    had more to come, or the run ended at the first final page, by
    returning the accumulated records or by raising what the page
    raises. *)
Lemma loop_shape fuel : forall n s,
  let R := loop fuel n s in
  (outcome R = None /\ Forall more_pages (received R) /\ length (received R) = fuel) \/
  (exists pre r, received R = pre ++ [r] /\ Forall more_pages pre /\ final r /\
     ((outcome R = Some (Ok (results s ++ flat_map page_items (received R))) /\
       ~ (exists e, raises r e)) \/
      (exists e, outcome R = Some (Raise e) /\ raises r e))).
Proof.
  induction fuel as [|fuel IH]; intros n s; simpl.
  - left. auto.
  - set (q := request_params s). set (r := post n q).
    destruct (reply_kinds loads r) as [Hm|Hf].
    + destruct (iteration_more_pages n s Hm) as (s' & Hs').
      rewrite Hs'. simpl.
      pose proof (iteration_next n s s' Hs') as (d & _ & _ & _ & Hs'eq).
      fold q r in Hs'eq.
      destruct (IH (S n) s') as [(Ho & Hall & Hlen)|(pre & r' & Hrec & Hall & Hfin & Hres)].
      * left. repeat split; auto.
      * right. exists (r :: pre), r'. rewrite Hrec. repeat split; auto.
        destruct Hres as [(Ho & Hnr)|(e & Ho & Hr)].
        -- left. split; [|exact Hnr]. rewrite Ho. rewrite <- Hrec.
           rewrite Hs'eq. simpl. rewrite <- app_assoc. reflexivity.
        -- right. exists e. auto.
    + right. exists [], r.
      unfold Paginator.iteration. fold q r.
      destruct (handle_final loads q s r Hf) as [[H Hnr]|(e & H & Hr)]; rewrite H; simpl.
      * repeat split; auto. left. split; [|exact Hnr]. rewrite app_nil_r. reflexivity.
      * repeat split; auto. right. exists e. auto.
Qed.

(** Requests and replies go in pairs. *)
Lemma loop_reply_of_request fuel : forall n s k r,
  received (loop fuel n s) !! k = Some r ->
  exists q, sent (loop fuel n s) !! k = Some q /\ r = post (n + k) q.
Proof.
  induction fuel as [|fuel IH]; intros n s k r; simpl; [discriminate|].
  destruct (iteration n s) as [s'|acc|e] eqn:Hi; simpl.
  - destruct k as [|k]; simpl.
    + intros [= <-]. eexists. split; [reflexivity|]. rewrite Nat.add_0_r. reflexivity.
    + intros H. apply IH in H as (q & Hq & ->). exists q. split; [exact Hq|].
      f_equal. lia.
  - destruct k as [|k]; simpl; [|discriminate].
    intros [= <-]. eexists. split; [reflexivity|]. rewrite Nat.add_0_r. reflexivity.
  - destruct k as [|k]; simpl; [|discriminate].
    intros [= <-]. eexists. split; [reflexivity|]. rewrite Nat.add_0_r. reflexivity.
Qed.

Lemma loop_first_request fuel n s q :
  sent (loop fuel n s) !! 0 = Some q -> q = request_params s.
Proof.
  destruct fuel as [|fuel]; simpl; [discriminate|].
  destruct (iteration n s); simpl; congruence.
Qed.

(** Each request after the first is the one before it with the cursor
    and the token of the page that answered it. *)
Lemma loop_next_request fuel : forall n s k q q',
  sent (loop fuel n s) !! k = Some q ->
  sent (loop fuel n s) !! S k = Some q' ->
  exists d, decoded (post (n + k) q) = Some d /\
    truthy (entry_or_none d "forwardCursor") = true /\
    q' = <["collation_token" := entry_or_none d "collationToken"]>
           (<["forward_cursor" := entry_or_none d "forwardCursor"]> q).
Proof.
  induction fuel as [|fuel IH]; intros n s k q q'; simpl; [discriminate|].
  destruct (iteration n s) as [s'|acc|e] eqn:Hi; simpl.
  2,3: destruct k; simpl; discriminate.
  destruct k as [|k]; simpl.
  - intros [= <-] H0. apply loop_first_request in H0.
    apply iteration_next in Hi as (d & Hd & _ & Hc & ->).
    exists d. rewrite Nat.add_0_r. split; [exact Hd|]. split; [exact Hc|].
    subst q'. unfold request_params at 1. simpl. rewrite Hc. reflexivity.
  - intros Hk HSk. destruct (IH (S n) s' k q q' Hk HSk) as (d & Hd & Hc & ->).
    exists d. replace (n + S k) with (S n + k) by lia. auto.
Qed.

End PaginationRuns.

Section PaginatorClaims.

Variable post : nat -> gmap string pyval -> reply.
Variable loads : string -> result pyval.

Local Abbreviation decoded := (decoded loads).
Local Abbreviation decode_fails := (decode_fails loads).
Local Abbreviation no_results := (no_results loads).
Local Abbreviation no_cursor := (no_cursor loads).
Local Abbreviation more_pages := (more_pages loads).
Local Abbreviation final := (final loads).
Local Abbreviation raises := (raises loads).
Local Abbreviation page_items := (page_items loads).
Local Abbreviation get_ads_data_for_domain := (get_ads_data_for_domain post loads).

Lemma raises_deterministic r e e' : raises r e -> raises r e' -> e = e'.
Proof.
  intros H H'.
  apply (handle_raises loads ∅ (initial ∅)) in H.
  apply (handle_raises loads ∅ (initial ∅)) in H'.
  congruence.
Qed.

Lemma Forall_last (P : reply -> Prop) (l : list reply) (r : reply) :
  Forall P l -> last l = Some r -> P r.
Proof.
  intros Hall Hlast. rewrite Forall_forall in Hall. apply Hall.
  apply last_Some in Hlast as (pre & ->).
  apply elem_of_app. right. apply list_elem_of_here.
Qed.

Lemma Forall_Exists_clash (l : list reply) :
  Forall more_pages l -> Exists final l -> False.
Proof.
  intros Hall Hex. apply Exists_exists in Hex as (r & Hin & Hf).
  rewrite Forall_forall in Hall. eapply more_pages_not_final; eauto.
Qed.

(** C1 (as amended).  After any number of requests the loop has ended if
    and only if one of the replies it received is final: its body fails
    JSON decoding, its results are empty or absent, its [forwardCursor] is
    absent or empty, or it makes the function raise.  The loop is still
    running if and only if every reply so far had results and a cursor
    that is not empty; on a stream of such replies it never ends. *)
Theorem pagination_ends_iff (fuel : nat) (params0 : gmap string pyval) :
  let R := get_ads_data_for_domain fuel params0 in
  (outcome R <> None <-> Exists final (received R)) /\
  (outcome R = None <-> Forall more_pages (received R) /\ length (received R) = fuel) /\
  ((forall n q, more_pages (post n q)) -> outcome R = None).
Proof.
  intros R.
  pose proof (loop_shape post loads fuel 0 (initial params0)) as Hshape.
  cbv zeta in Hshape. fold (get_ads_data_for_domain fuel params0) in Hshape. fold R in Hshape.
  assert (Hends : outcome R <> None <-> Exists final (received R)).
  { destruct Hshape as [(Ho & Hall & Hlen)|(pre & r & Hrec & Hall & Hfin & Hres)].
    - split; [congruence|]. intros Hex. exfalso. eapply Forall_Exists_clash; eauto.
    - split.
      + intros _. rewrite Hrec. apply Exists_app. right. constructor. exact Hfin.
      + intros _. destruct Hres as [(Ho & _)|(e & Ho & _)]; congruence. }
  split; [exact Hends|]. split.
  - destruct Hshape as [(Ho & Hall & Hlen)|(pre & r & Hrec & Hall & Hfin & Hres)].
    + split; auto.
    + split.
      * destruct Hres as [(Ho & _)|(e & Ho & _)]; congruence.
      * intros (Hall' & _). exfalso. apply (Forall_Exists_clash (received R) Hall').
        rewrite Hrec. apply Exists_app. right. constructor. exact Hfin.
  - intros Hstream. destruct (outcome R) as [res|] eqn:Ho; [exfalso|reflexivity].
    assert (Hex : Exists final (received R)) by (apply Hends; congruence).
    apply Exists_exists in Hex as (r & Hin & Hf).
    apply list_elem_of_lookup in Hin as (k & Hk).
    apply loop_reply_of_request in Hk as (q & _ & ->).
    eapply more_pages_not_final; eauto.
Qed.

(** Enough fuel gives the result: when the reply to the [k]-th request
    is final, whatever parameters it is sent with, the loop has ended
    after [k + 1] requests at the latest. *)
Lemma pagination_ends_by (k : nat) (params0 : gmap string pyval) :
  (forall q, final (post k q)) ->
  outcome (get_ads_data_for_domain (S k) params0) <> None.
Proof.
  intros Hfinal Hnone.
  destruct (loop_shape post loads (S k) 0 (initial params0))
    as [(_ & Hall & Hlen)|(pre & r & _ & _ & _ & [(Ho & _)|(e & Ho & _)])];
    [|unfold Paginator.get_ads_data_for_domain in Hnone; congruence..].
  destruct (lookup_lt_is_Some_2 (received (loop post loads (S k) 0 (initial params0))) k)
    as (r & Hr); [lia|].
  pose proof Hr as Hin. apply loop_reply_of_request in Hr as (q & _ & ->).
  rewrite Forall_forall in Hall.
  apply (more_pages_not_final loads (post k q)); [|apply Hfinal].
  apply Hall. apply list_elem_of_lookup. eauto.
Qed.

(** C2.  When the parameter set the function is given holds no cursor
    field, the first request holds none either, and every later request
    is the request before it in which [forward_cursor] and
    [collation_token] are the [forwardCursor] and [collationToken] read
    from the page that answered that request ([None] for a token the page
    does not have). *)
Theorem cursor_fields_follow_pages (fuel : nat) (params0 : gmap string pyval) :
  params0 !! "forward_cursor" = None ->
  params0 !! "collation_token" = None ->
  let R := get_ads_data_for_domain fuel params0 in
  (forall q, sent R !! 0 = Some q ->
     q = params0 /\ q !! "forward_cursor" = None /\ q !! "collation_token" = None) /\
  (forall k q q', sent R !! k = Some q -> sent R !! S k = Some q' ->
     exists d, decoded (post k q) = Some d /\
       q' !! "forward_cursor" = Some (entry_or_none d "forwardCursor") /\
       q' !! "collation_token" = Some (entry_or_none d "collationToken") /\
       forall key, key <> "forward_cursor" -> key <> "collation_token" ->
                   q' !! key = q !! key).
Proof.
  intros Hfc Hct R. split.
  - intros q Hq. apply loop_first_request in Hq. subst q. auto.
  - intros k q q' Hk HSk.
    destruct (loop_next_request post loads fuel 0 (initial params0) k q q' Hk HSk)
      as (d & Hd & _ & ->).
    exists d. split; [exact Hd|]. split; [|split].
    + rewrite lookup_insert_ne by discriminate. apply lookup_insert_eq.
    + apply lookup_insert_eq.
    + intros key H1 H2. rewrite !lookup_insert_ne by congruence. reflexivity.
Qed.

(** C3 (as amended).  What the function returns is the list of the
    records of the pages it received, and nothing else.  It returns it
    whenever the last reply is a body that fails JSON decoding or the end
    of the cursor chain; it raises exactly when the last reply makes it
    raise (the request fails, the decoder raises another exception, the
    decoded body or its payload is not an object, or the results cannot
    be iterated). *)
Theorem partial_results_or_raise (fuel : nat) (params0 : gmap string pyval) :
  let R := get_ads_data_for_domain fuel params0 in
  (forall records, outcome R = Some (Ok records) ->
     records = flat_map page_items (received R)) /\
  (forall r, last (received R) = Some r ->
     decode_fails r \/ no_results r \/ no_cursor r ->
     outcome R = Some (Ok (flat_map page_items (received R)))) /\
  (forall e, outcome R = Some (Raise e) <->
     exists r, last (received R) = Some r /\ raises r e).
Proof.
  intros R.
  pose proof (loop_shape post loads fuel 0 (initial params0)) as Hshape.
  cbv zeta in Hshape. fold (get_ads_data_for_domain fuel params0) in Hshape. fold R in Hshape.
  simpl in Hshape.
  destruct Hshape as [(Ho & Hall & Hlen)|(pre & r & Hrec & Hall & Hfin & Hres)].
  - split; [rewrite Ho; discriminate|]. split.
    + intros r Hlast Hkind. exfalso.
      pose proof (Forall_last _ _ _ Hall Hlast) as Hr.
      apply (more_pages_not_final loads r Hr). unfold Paginator.final. tauto.
    + intros e. split; [rewrite Ho; discriminate|].
      intros (r & Hlast & Hr). exfalso.
      pose proof (Forall_last _ _ _ Hall Hlast) as Hm.
      apply (more_pages_not_final loads r Hm). right. right. right. eauto.
  - assert (Hlast : last (received R) = Some r) by (rewrite Hrec; apply last_snoc).
    destruct Hres as [(Ho & Hnr)|(e & Ho & Hr)].
    + split; [intros records; rewrite Ho; congruence|]. split.
      * intros _ _ _. exact Ho.
      * intros e. split; [rewrite Ho; discriminate|].
        intros (r' & Hlast' & Hr'). exfalso. apply Hnr. exists e. congruence.
    + split; [rewrite Ho; discriminate|]. split.
      * intros r' Hlast' Hkind. exfalso.
        assert (r' = r) by congruence. subst r'.
        pose proof (handle_raises loads ∅ (initial ∅) r e Hr) as Ht.
        destruct Hkind as [H|[H|H]].
        -- rewrite (handle_decode_failure loads _ _ _ H) in Ht. discriminate.
        -- rewrite (handle_no_results loads _ _ _ H) in Ht. discriminate.
        -- destruct H as (d & items & Hres & Hc).
           rewrite (handle_results loads _ _ _ _ _ Hres), Hc in Ht. discriminate.
      * intros e'. split.
        -- rewrite Ho. intros [= <-]. eauto.
        -- intros (r' & Hlast' & Hr'). assert (r' = r) by congruence. subst r'.
           rewrite Ho. do 2 f_equal. eapply raises_deterministic; eauto.
Qed.

End PaginatorClaims.

(** *** The batch *)

Section BatchFacts.

Variable post : string -> nat -> gmap string pyval -> reply.
Variable loads : string -> result pyval.
Variables (scraping_mode session_id ad_status country v_value : string).
Variables (start_date end_date : date).

Local Abbreviation item_params :=
  (Driver.item_params scraping_mode session_id ad_status country v_value start_date end_date).
Local Abbreviation scrape_items :=
  (Driver.scrape_items post loads scraping_mode session_id ad_status country v_value
     start_date end_date).

(** An item whose call returns, be it after a body that is not JSON,
    hands its records over and the batch goes on. *)
Lemma scrape_items_returned fuel item rest ads_data p records :
  item_params item = Ok p ->
  outcome (get_ads_data_for_domain (post item) loads fuel p) = Some (Ok records) ->
  scrape_items fuel (item :: rest) ads_data = scrape_items fuel rest (ads_data ++ records).
Proof. intros Hp Ho. simpl. rewrite Hp, Ho. reflexivity. Qed.

(** An item whose call raises ends the batch: the items after it are not
    fetched and the records gathered so far are not returned. *)
Lemma scrape_items_raised fuel item rest ads_data p e :
  item_params item = Ok p ->
  outcome (get_ads_data_for_domain (post item) loads fuel p) = Some (Raise e) ->
  scrape_items fuel (item :: rest) ads_data = Some (Raise e).
Proof. intros Hp Ho. simpl. rewrite Hp, Ho. reflexivity. Qed.

End BatchFacts.

(** *** The prefix of the body *)

(** What [lstrip] leaves starts with no character of the set. *)
Lemma lstrip_head (s chars : string) :
  match lstrip s chars with
  | EmptyString => True
  | String c _ => mem_char c chars = false
  end.
Proof.
  induction s as [|c s IH]; simpl; [exact I|].
  destruct (mem_char c chars) eqn:Hc; [exact IH|exact Hc].
Qed.

Lemma lstrip_past (a : string) (c : ascii) (rest chars : string) :
  forallb (fun x => mem_char x chars) (list_ascii_of_string a) = true ->
  mem_char c chars = false ->
  lstrip (a +:+ String c rest) chars = String c rest.
Proof.
  intros Ha Hc. induction a as [|x a IH]; simpl in *.
  - rewrite Hc. reflexivity.
  - apply andb_prop in Ha as [Hx Ha]. rewrite Hx. exact (IH Ha).
Qed.

(** On a body made of the prefix and a document that starts with none of
    its characters (an object, an array), the code and the specification
    hand the same text to the decoder. *)
Lemma decoder_input_plain_document (c : ascii) (rest : string) :
  mem_char c hijack_prefix = false ->
  decoder_input (hijack_prefix +:+ String c rest) = String c rest /\
  spec_decoder_input (hijack_prefix +:+ String c rest) = String c rest.
Proof.
  intros Hc. split.
  - apply lstrip_past; [reflexivity|exact Hc].
  - reflexivity.
Qed.

Lemma without_prefix_some (prefix text rest : string) :
  without_prefix prefix text = Some rest -> text = prefix +:+ rest.
Proof.
  revert text. induction prefix as [|p prefix IH]; intros text; simpl.
  - intros [= ->]. reflexivity.
  - destruct text as [|c text]; [discriminate|].
    destruct (Ascii.eqb_spec p c) as [->|_]; [|discriminate].
    intros H. rewrite (IH text H). reflexivity.
Qed.

Lemma lstrip_through (a rest chars : string) :
  forallb (fun x => mem_char x chars) (list_ascii_of_string a) = true ->
  lstrip (a +:+ rest) chars = lstrip rest chars.
Proof.
  intros Ha. induction a as [|x a IH]; simpl in *; [reflexivity|].
  apply andb_prop in Ha as [Hx Ha]. rewrite Hx. exact (IH Ha).
Qed.

(** What the code hands to the decoder is what the specification hands to
    it, stripped further. *)
Lemma decoder_input_strips_further (text : string) :
  decoder_input text = lstrip (spec_decoder_input text) hijack_prefix.
Proof.
  unfold decoder_input, spec_decoder_input.
  destruct (without_prefix hijack_prefix text) as [rest|] eqn:H; [|reflexivity].
  rewrite (without_prefix_some _ _ _ H). apply lstrip_through. reflexivity.
Qed.

(** C4.  The code strips leading characters of the set
    [{f, o, r, space, (, ;, )}], not the prefix: after the prefix it goes
    on into the document, and it eats into a body that has no prefix. *)
Theorem decoder_input_strips_characters :
  decoder_input "for (;;);false" = "alse" /\
  spec_decoder_input "for (;;);false" = "false" /\
  decoder_input "forbidden" = "bidden" /\
  spec_decoder_input "forbidden" = "forbidden".
Proof. repeat split. Qed.

(** *** Runs on concrete servers *)

Import Reference.

(** C1 (as stated) fails: the page below decodes, its results are a list
    of one record and it has a [forwardCursor] entry, yet the loop ends
    with it, because the cursor is the empty text. *)
Lemma empty_cursor_ends_the_loop :
  outcome (get_ads_data_for_domain serve_empty_cursor (loads_table empty_cursor_page) 1 ∅)
    = Some (Ok [ad "1"]) /\
  exists d, decoded (loads_table empty_cursor_page) (serve_empty_cursor 0 ∅) = Some d /\
    payload_entry d "results" = Some (PList [ad "1"]) /\
    payload_entry d "forwardCursor" = Some (PStr "").
Proof.
  split; [reflexivity|]. eexists. split; [reflexivity|]. split; reflexivity.
Qed.

Lemma serve_endless_more_pages n q :
  more_pages (loads_table three_pages) (serve_endless n q).
Proof.
  eexists _, _. split; [split; [split; [reflexivity|]|split; reflexivity]|reflexivity].
  eexists. split; [reflexivity|]. reflexivity.
Qed.

(** A stream of pages that all have results and a cursor: the loop is
    still running after twenty-five requests. *)
Lemma endless_stream_never_ends :
  (forall n q, more_pages (loads_table three_pages) (serve_endless n q)) /\
  outcome (get_ads_data_for_domain serve_endless (loads_table three_pages) 25 ∅) = None.
Proof.
  split; [exact serve_endless_more_pages|].
  apply (proj2 (proj2 (pagination_ends_iff serve_endless (loads_table three_pages) 25 ∅))).
  exact serve_endless_more_pages.
Defined.

(** The chain of three pages, from the parameters of a keyword search. *)
Lemma cursor_fields_three_pages :
  keyword_params "shoes" !! "forward_cursor" = None /\
  keyword_params "shoes" !! "collation_token" = None /\
  let R := get_ads_data_for_domain serve_three (loads_table three_pages) 5
             (keyword_params "shoes") in
  (forall q, sent R !! 0 = Some q ->
     q = keyword_params "shoes" /\
     q !! "forward_cursor" = None /\ q !! "collation_token" = None) /\
  (forall k q q', sent R !! k = Some q -> sent R !! S k = Some q' ->
     exists d, decoded (loads_table three_pages) (serve_three k q) = Some d /\
       q' !! "forward_cursor" = Some (entry_or_none d "forwardCursor") /\
       q' !! "collation_token" = Some (entry_or_none d "collationToken") /\
       forall key, key <> "forward_cursor" -> key <> "collation_token" ->
                   q' !! key = q !! key).
Proof.
  split; [reflexivity|]. split; [reflexivity|].
  apply (cursor_fields_follow_pages serve_three (loads_table three_pages) 5
           (keyword_params "shoes")); reflexivity.
Defined.

(** C3 (as stated) fails: a request that cannot reach the server makes
    the function raise, and the batch with it, although the other item of
    the batch can be fetched. *)
Lemma transport_error_escapes :
  outcome (get_ads_data_for_domain serve_unreachable (loads_table three_pages) 1
             (keyword_params "shoes"))
    = Some (Raise (RequestException "ConnectionError")) /\
  Driver.scrape_items serve_batch (loads_table three_pages) "Keywords" "session" "Active"
    "US" "2c4a00" {| year := 2024; month := 1; day := 2 |}
    {| year := 2024; month := 3; day := 4 |} 5 ["first"; "second"] []
    = Some (Raise (RequestException "ConnectionError")) /\
  Driver.scrape_items serve_batch (loads_table three_pages) "Keywords" "session" "Active"
    "US" "2c4a00" {| year := 2024; month := 1; day := 2 |}
    {| year := 2024; month := 3; day := 4 |} 5 ["second"] []
    = Some (Ok [ad "1"; ad "2"; ad "3"; ad "4"]).
Proof. repeat split. Qed.

(** A page of records, then a body that is not JSON: the records of the
    first page are returned. *)
Lemma garbage_page_keeps_records :
  outcome (get_ads_data_for_domain serve_then_garbage (loads_table three_pages) 4 ∅)
    = Some (Ok [ad "1"; ad "2"]).
Proof.
  apply (proj1 (proj2 (partial_results_or_raise serve_then_garbage
                         (loads_table three_pages) 4 ∅))
           (Response 502 "<html>Bad Gateway</html>")).
  - reflexivity.
  - left. eexists _, _. split; reflexivity.
Defined.

(** ** Normaliser *)

Section NormalizerFacts.

Variable urlsplit : string -> result url_parts.
Variable unquote_escapes : string -> string.
Variable to_datetime : pyval -> result pd_value.

Local Abbreviation process_record := (process_record urlsplit unquote_escapes to_datetime).
Local Abbreviation process_item := (process_item urlsplit unquote_escapes to_datetime).
Local Abbreviation process_ads_data := (process_ads_data urlsplit unquote_escapes to_datetime).

(** *** Recursion into groups *)

Lemma process_item_group (subs : list pyval) :
  process_item (PList subs) = process_ads_data subs.
Proof.
  simpl. induction subs as [|sub subs IH]; simpl; [reflexivity|].
  destruct (process_item sub); simpl; [|reflexivity].
  rewrite IH. reflexivity.
Qed.

Lemma process_item_single (item : pyval) :
  is_list item = false ->
  process_item item = r ← process_record item; Ok [r].
Proof. destruct item; simpl; try reflexivity. discriminate. Qed.

(** The call [process_ads_data([sub_item])] of line 108. *)
Lemma process_ads_data_singleton (item : pyval) :
  process_ads_data [item] = process_item item.
Proof.
  simpl. destruct (process_item item); simpl; [|reflexivity].
  rewrite app_nil_r. reflexivity.
Qed.

Lemma process_ads_data_app (xs ys : list pyval) :
  process_ads_data (xs ++ ys) =
    a ← process_ads_data xs; b ← process_ads_data ys; Ok (a ++ b).
Proof.
  induction xs as [|x xs IH]; simpl.
  - destruct (process_ads_data ys); reflexivity.
  - destruct (process_item x) as [p|e]; simpl; [|reflexivity].
    rewrite IH. destruct (process_ads_data xs) as [a|e]; simpl; [|reflexivity].
    destruct (process_ads_data ys) as [b|e]; simpl; [|reflexivity].
    rewrite app_assoc. reflexivity.
Qed.

(** A list of entries none of which is a list gives one record each. *)
Lemma process_ads_data_singles (l rs : list pyval) :
  Forall (fun x => is_list x = false) l ->
  Forall2 (fun x r => process_record x = Ok r) l rs ->
  process_ads_data l = Ok rs.
Proof.
  intros Hsingle Hrec. induction Hrec as [|x r l rs Hx Hrec IH]; simpl; [reflexivity|].
  apply Forall_cons in Hsingle as [Hx1 Hsingle].
  rewrite (process_item_single x Hx1), Hx. simpl.
  rewrite (IH Hsingle). reflexivity.
Qed.

(** *** The single entries of the input *)

Local Abbreviation record_of := (fun leaf r => process_record leaf = Ok r).

Lemma process_item_single_leaf (item : pyval) (out : list pyval) :
  is_list item = false ->
  process_item item = Ok out <-> Forall2 record_of [item] out.
Proof.
  intros Hitem. rewrite process_item_single by exact Hitem. split.
  - intros H. apply bind_ok in H as (r & Hr & [= <-]). repeat constructor. exact Hr.
  - intros H. inversion H as [|? r ? rs Hr Hrest]; subst.
    inversion Hrest; subst. rewrite Hr. reflexivity.
Qed.

Lemma process_ads_data_leaves_from (l : list pyval) :
  Forall (fun item => forall out,
            process_item item = Ok out <-> Forall2 record_of (flatten item) out) l ->
  forall out, process_ads_data l = Ok out <-> Forall2 record_of (flat_map flatten l) out.
Proof.
  induction 1 as [|x l Hx _ IH]; intros out; simpl.
  - split; [intros [= <-]; constructor|intros H; inversion H; reflexivity].
  - split.
    + intros H. apply bind_ok in H as (p & Hp & H).
      apply bind_ok in H as (more & Hmore & [= <-]).
      apply Forall2_app; [apply Hx|apply IH]; assumption.
    + intros H. apply Forall2_app_inv_l in H as (k1 & k2 & H1 & H2 & ->).
      apply Hx in H1. apply IH in H2. rewrite H1. simpl. rewrite H2. reflexivity.
Qed.

Lemma process_item_leaves (item : pyval) : forall out,
  process_item item = Ok out <-> Forall2 record_of (flatten item) out.
Proof.
  induction item as [| | | | | |l IH|kvs _] using pyval_nested_ind; intros out;
    try (apply process_item_single_leaf; reflexivity).
  rewrite process_item_group. apply process_ads_data_leaves_from. exact IH.
Qed.

Lemma process_ads_data_leaves (ads_data out : list pyval) :
  process_ads_data ads_data = Ok out <->
  Forall2 record_of (flat_map flatten ads_data) out.
Proof.
  apply process_ads_data_leaves_from. apply Forall_forall.
  intros item _. apply process_item_leaves.
Qed.

End NormalizerFacts.

(** *** [ensure_serializable] *)

Lemma ensure_serializable_dict (kvs : list (string * pyval)) :
  ensure_serializable (PDict kvs) = kvs' ← ensure_items kvs; Ok (PDict kvs').
Proof.
  reflexivity.
Qed.

Lemma ensure_serializable_list (l : list pyval) :
  ensure_serializable (PList l) = l' ← ensure_members l; Ok (PList l').
Proof.
  reflexivity.
Qed.

(** A value without bytes is returned as it is. *)
Lemma ensure_serializable_no_bytes (v : pyval) :
  no_bytes v = true -> ensure_serializable v = Ok v.
Proof.
  induction v as [| | | | | |l IH|kvs IH] using pyval_nested_ind;
    intros Hv; try reflexivity; try discriminate.
  - rewrite ensure_serializable_list.
    assert (Hl : ensure_members l = Ok l).
    { simpl in Hv. induction IH as [|x l Hx IH IHl]; simpl; [reflexivity|].
      simpl in Hv. apply andb_prop in Hv as [Hx' Hl'].
      rewrite (Hx Hx'). simpl. rewrite (IHl Hl'). reflexivity. }
    rewrite Hl. reflexivity.
  - rewrite ensure_serializable_dict.
    assert (Hl : ensure_items kvs = Ok kvs).
    { simpl in Hv. induction IH as [|[k x] l Hx IH IHl]; simpl; [reflexivity|].
      simpl in Hv, Hx. apply andb_prop in Hv as [Hx' Hl'].
      rewrite (Hx Hx'). simpl. rewrite (IHl Hl'). reflexivity. }
    rewrite Hl. reflexivity.
Qed.

(** What it returns has no bytes left. *)
Lemma ensure_serializable_result (v v' : pyval) :
  ensure_serializable v = Ok v' -> no_bytes v' = true.
Proof.
  revert v'.
  induction v as [| | | | |b|l IH|kvs IH] using pyval_nested_ind;
    intros v' Hv; try (injection Hv as <-; reflexivity).
  - simpl in Hv. destruct (decode_utf8 b); [|discriminate].
    injection Hv as <-. reflexivity.
  - rewrite ensure_serializable_list in Hv.
    apply bind_ok in Hv as (l' & Hl & [= <-]). simpl.
    revert l' Hl. induction IH as [|x l Hx IH IHl]; simpl; intros l' Hl.
    + injection Hl as <-. reflexivity.
    + apply bind_ok in Hl as (x' & Hx' & Hl).
      apply bind_ok in Hl as (rest & Hrest & [= <-]). simpl.
      rewrite (Hx x' Hx'), (IHl rest Hrest). reflexivity.
  - rewrite ensure_serializable_dict in Hv.
    apply bind_ok in Hv as (l' & Hl & [= <-]). simpl.
    revert l' Hl. induction IH as [|[k x] l Hx IH IHl]; simpl; intros l' Hl.
    + injection Hl as <-. reflexivity.
    + simpl in Hx. apply bind_ok in Hl as (x' & Hx' & Hl).
      apply bind_ok in Hl as (rest & Hrest & [= <-]). simpl.
      rewrite (Hx x' Hx'), (IHl rest Hrest). reflexivity.
Qed.

Lemma ensure_items_keys (kvs kvs' : list (string * pyval)) :
  ensure_items kvs = Ok kvs' ->
  map fst kvs' = map fst kvs /\ forallb (fun kv => no_bytes (snd kv)) kvs' = true.
Proof.
  revert kvs'. induction kvs as [|[k v] kvs IH]; simpl; intros kvs' H.
  - injection H as <-. auto.
  - apply bind_ok in H as (v' & Hv & H).
    apply bind_ok in H as (rest & Hrest & [= <-]). simpl.
    destruct (IH rest Hrest) as [-> ->].
    rewrite (ensure_serializable_result v v' Hv). auto.
Qed.

(** A field that is [None] or a text is left alone, and a field is a
    text afterwards only if it was a text or bytes before. *)
Lemma ensure_items_assoc (kvs kvs' : list (string * pyval)) (k : string) :
  ensure_items kvs = Ok kvs' ->
  match assoc k kvs with
  | Some v => exists v', ensure_serializable v = Ok v' /\ assoc k kvs' = Some v'
  | None => assoc k kvs' = None
  end.
Proof.
  revert kvs'. induction kvs as [|[k0 v] kvs IH]; simpl; intros kvs' H.
  - injection H as <-. reflexivity.
  - apply bind_ok in H as (v' & Hv & H).
    apply bind_ok in H as (rest & Hrest & [= <-]). simpl.
    destruct (k0 =? k); [eauto|]. apply IH. exact Hrest.
Qed.

Section NormalizerClaims.

Variable urlsplit : string -> result url_parts.
Variable unquote_escapes : string -> string.
Variable to_datetime : pyval -> result pd_value.

Local Abbreviation format_date := (format_date to_datetime).
Local Abbreviation extract_domain := (extract_domain urlsplit).
Local Abbreviation extract_from_url := (extract_from_url urlsplit unquote_escapes).
Local Abbreviation process_record := (process_record urlsplit unquote_escapes to_datetime).
Local Abbreviation process_item := (process_item urlsplit unquote_escapes to_datetime).
Local Abbreviation process_ads_data := (process_ads_data urlsplit unquote_escapes to_datetime).

(** Takes a successful run of binds apart. *)
Ltac unbind H :=
  repeat match type of H with
         | mbind _ _ = Ok _ =>
             let x := fresh "x" in let Hx := fresh "Hx" in
             apply bind_ok in H as (x & Hx & H)
         end.

(** *** The shape of the records produced *)

Lemma process_record_canonical (item r : pyval) :
  process_record item = Ok r -> is_canonical r = true.
Proof.
  unfold Normalizer.process_record. intros H. unbind H.
  rewrite ensure_serializable_dict in H.
  apply bind_ok in H as (kvs' & Hitems & [= <-]).
  apply ensure_items_keys in Hitems as [Hkeys Hvals].
  simpl. rewrite Hvals, andb_true_r. apply bool_decide_eq_true_2. exact Hkeys.
Qed.

Lemma process_item_canonical (item : pyval) : forall out,
  process_item item = Ok out -> Forall (fun r => is_canonical r = true) out.
Proof.
  induction item as [| | | | | |l IH|kvs _] using pyval_nested_ind; intros out H;
    try (apply bind_ok in H as (r & Hr & [= <-]);
         constructor; [exact (process_record_canonical _ _ Hr)|constructor]).
  simpl in H. revert out H.
  induction IH as [|x l Hx IH IHl]; intros out H.
  - injection H as <-. constructor.
  - apply bind_ok in H as (p & Hp & H).
    apply bind_ok in H as (rest & Hrest & [= <-]).
    apply Forall_app. split; [exact (Hx p Hp)|exact (IHl rest Hrest)].
Qed.

Lemma process_ads_data_canonical (ads_data : list pyval) : forall out,
  process_ads_data ads_data = Ok out -> Forall (fun r => is_canonical r = true) out.
Proof.
  induction ads_data as [|item rest IH]; simpl; intros out H.
  - injection H as <-. constructor.
  - apply bind_ok in H as (p & Hp & H).
    apply bind_ok in H as (more & Hmore & [= <-]).
    apply Forall_app. split; [exact (process_item_canonical item p Hp)|exact (IH more Hmore)].
Qed.

(** *** A second application *)

Hypothesis urlsplit_empty : urlsplit "" = Ok {| netloc := ""; query := "" |}.

(** A record that has none of the keys of a raw entry but [adid] and
    [collationCount] keeps those two and nothing else. *)
Lemma process_record_of_canonical (r : pyval) :
  is_canonical r = true -> process_record r = Ok (reduced r).
Proof.
  destruct r as [| | | | | | |kvs]; try discriminate. simpl.
  intros H. apply andb_prop in H as [Hkeys Hvals].
  apply bool_decide_eq_true in Hkeys. unfold canonical_keys in Hkeys.
  do 18 (destruct kvs as [|[? ?] kvs]; [discriminate Hkeys|];
         simpl in Hkeys; injection Hkeys as -> Hkeys).
  destruct kvs; [|discriminate Hkeys]. clear Hkeys.
  simpl in Hvals.
  repeat (apply andb_prop in Hvals as [?Hv Hvals]).
  unfold Normalizer.process_record, reduced, Normalizer.extract_domain,
    Normalizer.extract_from_url, urlparse. cbn.
  rewrite urlsplit_empty. cbn.
  rewrite !ensure_serializable_no_bytes by assumption. reflexivity.
Qed.

Lemma is_canonical_not_list (r : pyval) : is_canonical r = true -> is_list r = false.
Proof. destruct r; simpl; congruence. Qed.

Lemma no_bytes_assoc (kvs : list (string * pyval)) (k : string) :
  forallb (fun kv => no_bytes (snd kv)) kvs = true ->
  no_bytes (match assoc k kvs with Some v => v | None => PNone end) = true.
Proof.
  induction kvs as [|[k0 v] kvs IH]; simpl; [reflexivity|].
  intros H. apply andb_prop in H as [Hv H].
  destruct (k0 =? k); [exact Hv|exact (IH H)].
Qed.

Lemma reduced_canonical (r : pyval) :
  is_canonical r = true -> is_canonical (reduced r) = true.
Proof.
  destruct r as [| | | | | | |kvs]; try discriminate. simpl.
  intros H. apply andb_prop in H as [_ Hvals].
  rewrite !(no_bytes_assoc kvs _ Hvals). reflexivity.
Qed.

Lemma reduced_reduced (r : pyval) : reduced (reduced r) = reduced r.
Proof. reflexivity. Qed.

Lemma process_ads_data_of_canonical (l : list pyval) :
  Forall (fun r => is_canonical r = true) l ->
  process_ads_data l = Ok (map reduced l).
Proof.
  intros Hl. apply process_ads_data_singles.
  - eapply Forall_impl; [exact Hl|]. exact is_canonical_not_list.
  - induction Hl as [|r l Hr Hl IH]; simpl; constructor; [|exact IH].
    exact (process_record_of_canonical r Hr).
Qed.

(** C6 (as amended).  Applied to its own output, [process_ads_data] does
    not give that output back: of each record it keeps [adid] and
    [collationCount] and puts the default in every other field.  On
    records of that reduced form it changes nothing, so it is idempotent
    from its second application on. *)
Theorem process_ads_data_settles (ads_data out : list pyval) :
  process_ads_data ads_data = Ok out ->
  process_ads_data out = Ok (map reduced out) /\
  process_ads_data (map reduced out) = Ok (map reduced out).
Proof.
  intros H. apply process_ads_data_canonical in H. split.
  - exact (process_ads_data_of_canonical out H).
  - rewrite process_ads_data_of_canonical.
    + rewrite map_map. reflexivity.
    + apply Forall_map. eapply Forall_impl; [exact H|]. exact reduced_canonical.
Qed.

End NormalizerClaims.

(** *** Groups *)

Section GroupClaim.

Variable urlsplit : string -> result url_parts.
Variable unquote_escapes : string -> string.
Variable to_datetime : pyval -> result pd_value.

Local Abbreviation process_record := (process_record urlsplit unquote_escapes to_datetime).
Local Abbreviation process_ads_data := (process_ads_data urlsplit unquote_escapes to_datetime).

Lemma flatten_singles (group : list pyval) :
  Forall (fun x => is_list x = false) group -> flat_map flatten group = group.
Proof.
  induction 1 as [|x group Hx _ IH]; simpl; [reflexivity|].
  rewrite IH. destruct x; try discriminate Hx; reflexivity.
Qed.

(** C7.  A group is processed as if its members stood in its place, and
    so are the groups inside it, to any depth: the records of its single
    entries, taken depth first, one canonical record for each, appear in
    the output in that order and next to each other, between what comes
    of the entries before the group and what comes of the entries after
    it; a group of [n] single records gives [n] records. *)
Theorem group_is_flattened_in_place (before group after : list pyval) :
  process_ads_data (before ++ PList group :: after)
    = process_ads_data (before ++ group ++ after) /\
  (forall a g c,
     process_ads_data before = Ok a ->
     Forall2 (fun leaf r => process_record leaf = Ok r) (flat_map flatten group) g ->
     process_ads_data after = Ok c ->
     process_ads_data (before ++ PList group :: after) = Ok (a ++ g ++ c) /\
     length g = length (flat_map flatten group) /\
     Forall (fun r => is_canonical r = true) g) /\
  (forall out,
     process_ads_data (before ++ PList group :: after) = Ok out ->
     exists a g c,
       out = a ++ g ++ c /\ process_ads_data before = Ok a /\
       Forall2 (fun leaf r => process_record leaf = Ok r) (flat_map flatten group) g /\
       process_ads_data after = Ok c) /\
  (Forall (fun x => is_list x = false) group ->
   flat_map flatten group = group /\ length (flat_map flatten group) = length group).
Proof.
  assert (Hflat : process_ads_data (before ++ PList group :: after)
                  = process_ads_data (before ++ group ++ after)).
  { change (PList group :: after) with ([PList group] ++ after).
    rewrite !process_ads_data_app, process_ads_data_singleton, process_item_group.
    reflexivity. }
  split; [exact Hflat|]. split; [|split].
  - intros a g c Ha Hg Hc.
    pose proof Hg as Hgroup. apply process_ads_data_leaves in Hgroup.
    split; [|split].
    + rewrite Hflat, !process_ads_data_app, Ha, Hgroup, Hc. reflexivity.
    + symmetry. eapply Forall2_length. exact Hg.
    + exact (process_ads_data_canonical urlsplit unquote_escapes to_datetime group g Hgroup).
  - intros out H. rewrite Hflat, !process_ads_data_app in H.
    apply bind_ok in H as (a & Ha & H). apply bind_ok in H as (gc & Hgc & [= <-]).
    apply bind_ok in Hgc as (g & Hg & Hgc). apply bind_ok in Hgc as (c & Hc & [= <-]).
    exists a, g, c. split; [reflexivity|]. split; [exact Ha|]. split; [|exact Hc].
    apply process_ads_data_leaves. exact Hg.
  - intros Hsingle. rewrite (flatten_singles group Hsingle). auto.
Qed.

End GroupClaim.

(** C6 (as stated) fails: normalising the record made of the flat entry
    of the specification loses its link, its title, its domain and its
    keywords. *)
Lemma process_ads_data_not_idempotent :
  exists canonical,
    normalize [flat_entry] = Ok [canonical] /\
    is_canonical canonical = true /\
    normalize [canonical] = Ok [reduced canonical] /\
    field canonical "link_url" = PStr "https://x.com/p?sqs=k1" /\
    field canonical "title" = PStr "T" /\
    field (reduced canonical) "link_url" = PStr "" /\
    field (reduced canonical) "title" = PStr "" /\
    normalize [canonical] <> Ok [canonical].
Proof.
  eexists. split; [reflexivity|]. repeat (split; [reflexivity|]). discriminate.
Qed.

(** The flat entry of the specification, normalised three times. *)
Lemma flat_entry_settles :
  urlsplit_generic "" = Ok {| netloc := ""; query := "" |} /\
  exists out, normalize [flat_entry] = Ok out /\
    normalize out = Ok (map reduced out) /\
    normalize (map reduced out) = Ok (map reduced out).
Proof.
  split; [reflexivity|]. eexists. split; [reflexivity|].
  apply (process_ads_data_settles urlsplit_generic unquote_nothing to_datetime_epoch
           eq_refl [flat_entry]).
  reflexivity.
Defined.

(** *** Dates *)

(** The day of the era, the year of the era and the day of the year that
    [civil_from_days] computes stay in their ranges. *)
Lemma year_of_era_range (doe : Z) :
  (0 <= doe <= 146096)%Z ->
  let yoe := ((doe - doe / 1460 + doe / 36524 - doe / 146096) / 365)%Z in
  let doy := (doe - (365 * yoe + yoe / 4 - yoe / 100))%Z in
  (0 <= yoe <= 399 /\ 0 <= doy <= 365)%Z.
Proof.
  intros H yoe doy. subst yoe doy.
  split; Z.to_euclidean_division_equations; lia.
Qed.

Lemma month_day_range (doy : Z) :
  (0 <= doy <= 365)%Z ->
  let mp := ((5 * doy + 2) / 153)%Z in
  let d := (doy - (153 * mp + 2) / 5 + 1)%Z in
  (0 <= mp <= 11 /\ 1 <= d <= 31)%Z.
Proof.
  intros H mp d. subst mp d.
  split; Z.to_euclidean_division_equations; lia.
Qed.

(** Every day a timestamp can fall on has a year of four digits, a month
    and a day of the month. *)
Lemma civil_from_days_four_digits (d : Z) :
  (first_day <= d <= last_day)%Z -> four_digit_date (civil_from_days d) = true.
Proof.
  unfold first_day, last_day. intros Hd.
  unfold civil_from_days, four_digit_date. cbv zeta.
  set (z := (d + 719468)%Z).
  set (era := (z / 146097)%Z).
  set (doe := (z - era * 146097)%Z).
  assert (Hera : (4 <= era <= 5)%Z)
    by (subst era z; Z.to_euclidean_division_equations; lia).
  assert (Hdoe : (0 <= doe <= 146096)%Z)
    by (subst doe era z; Z.to_euclidean_division_equations; lia).
  destruct (year_of_era_range doe Hdoe) as [Hyoe Hdoy]. cbv zeta in Hyoe, Hdoy.
  set (yoe := ((doe - doe / 1460 + doe / 36524 - doe / 146096) / 365)%Z) in *.
  set (doy := (doe - (365 * yoe + yoe / 4 - yoe / 100))%Z) in *.
  destruct (month_day_range doy Hdoy) as [Hmp Hday]. cbv zeta in Hmp, Hday.
  set (mp := ((5 * doy + 2) / 153)%Z) in *.
  set (dd := (doy - (153 * mp + 2) / 5 + 1)%Z) in *.
  simpl.
  repeat (apply andb_true_intro; split); apply Z.leb_le;
    destruct (mp <? 10)%Z eqn:Hlt;
    try (destruct (mp + 3 <=? 2)%Z); try (destruct (mp - 9 <=? 2)%Z);
    try apply Z.ltb_lt in Hlt; try apply Z.ltb_ge in Hlt; lia.
Qed.

Lemma timestamp_day_range (ns : Z) :
  (timestamp_min <= ns <= timestamp_max)%Z ->
  (first_day <= ns / nanoseconds_per_day <= last_day)%Z.
Proof.
  unfold timestamp_min, timestamp_max, first_day, last_day, nanoseconds_per_day.
  intros [Hlo Hhi]. split.
  - apply Z.div_le_lower_bound; lia.
  - apply Z.lt_succ_r. apply Z.div_lt_upper_bound; lia.
Qed.

(** A date of four digits is written [YYYY-MM-DD]: ten characters, with
    a dash after the year and after the month. *)
Lemma strftime_ymd_four_digits (d : date) :
  four_digit_date d = true ->
  strftime_ymd d = pad4 (year d) +:+ "-" +:+ pad2 (month d) +:+ "-" +:+ pad2 (day d).
Proof.
  unfold four_digit_date, strftime_ymd, year_text. intros H.
  apply andb_prop in H as [H _]. apply andb_prop in H as [H _]. apply Z.leb_le in H.
  destruct (Z.ltb_spec (year d) 10); [lia|].
  destruct (Z.ltb_spec (year d) 100); [lia|].
  destruct (Z.ltb_spec (year d) 1000); [lia|]. reflexivity.
Qed.

Lemma strftime_ymd_shape (d : date) :
  four_digit_date d = true ->
  exists y1 y2 y3 y4 m1 m2 d1 d2,
    strftime_ymd d =
      String y1 (String y2 (String y3 (String y4 (String "-"
        (String m1 (String m2 (String "-" (String d1 (String d2 EmptyString))))))))).
Proof.
  intros H. rewrite (strftime_ymd_four_digits d H).
  unfold pad4, pad2. simpl. repeat eexists.
Qed.

Lemma four_digit_year (d : date) :
  four_digit_date d = true -> andb (1 <=? year d)%Z (year d <=? 9999)%Z = true.
Proof.
  unfold four_digit_date. intros H.
  apply andb_prop in H as [H _]. apply andb_prop in H as [H1 H2].
  rewrite H2, andb_true_r. apply Z.leb_le. apply Z.leb_le in H1. lia.
Qed.

Section DateClaims.

Variable urlsplit : string -> result url_parts.
Variable unquote_escapes : string -> string.
Variable to_datetime : pyval -> result pd_value.

Local Abbreviation format_date := (format_date to_datetime).
Local Abbreviation process_record := (process_record urlsplit unquote_escapes to_datetime).
Local Abbreviation process_ads_data := (process_ads_data urlsplit unquote_escapes to_datetime).

Ltac unbind H :=
  repeat match type of H with
         | mbind _ _ = Ok _ =>
             let x := fresh "x" in let Hx := fresh "Hx" in
             apply bind_ok in H as (x & Hx & H)
         end.

(** A field of the record is what [ensure_serializable] makes of the
    value it was given. *)
Lemma ensure_serializable_field (kvs : list (string * pyval)) (r : pyval) (k : string) (v : pyval) :
  ensure_serializable (PDict kvs) = Ok r ->
  assoc k kvs = Some v ->
  ensure_serializable v = Ok (field r k).
Proof.
  rewrite ensure_serializable_dict. intros H Hk.
  apply bind_ok in H as (kvs' & Hitems & [= <-]).
  pose proof (ensure_items_assoc kvs kvs' k Hitems) as Ha. rewrite Hk in Ha.
  destruct Ha as (v' & Hv & Ha). simpl. rewrite Ha. exact Hv.
Qed.

Lemma process_ads_data_single (item r : pyval) :
  is_list item = false ->
  process_ads_data [item] = Ok [r] <-> process_record item = Ok r.
Proof.
  intros Hitem. rewrite process_ads_data_singleton, process_item_single by exact Hitem.
  split.
  - intros H. apply bind_ok in H as (r' & Hr & [= <-]). exact Hr.
  - intros ->. reflexivity.
Qed.

Lemma format_date_none (raw : pyval) : truthy raw = false -> format_date raw = Ok PNone.
Proof. unfold Normalizer.format_date. intros ->. reflexivity. Qed.

(** A timestamp is written when its year is one a Python [datetime]
    has, and makes the conversion raise otherwise. *)
Lemma format_date_timestamp (raw : pyval) (ns : Z) :
  truthy raw = true -> to_datetime raw = Ok (Timestamp ns) ->
  let d := civil_from_days (ns / nanoseconds_per_day) in
  format_date raw =
    if andb (1 <=? year d)%Z (year d <=? 9999)%Z then Ok (PStr (strftime_ymd d))
    else Raise NotImplementedError.
Proof. unfold Normalizer.format_date. intros -> Ht. simpl. rewrite Ht. reflexivity. Qed.

(** A true value that pandas coerces to [NaT] makes the conversion raise:
    [NaT] has no [strftime]. *)
Lemma format_date_nat (raw : pyval) :
  truthy raw = true -> to_datetime raw = Ok NaT ->
  format_date raw = Raise (ValueError "NaTType does not support strftime").
Proof. unfold Normalizer.format_date. intros -> Ht. simpl. rewrite Ht. reflexivity. Qed.

(** C5 (as amended).  Of a single raw record that [process_ads_data]
    normalises, a date value that is absent or false ([None], [0], [''])
    costs no exception and leaves the date field [None]; a value that is
    true and that pandas converts to a timestamp has a year from 1 to
    9999 (for any other year [strftime] raises and there is no record),
    and when its date has four digits, as the date of every timestamp of
    nanosecond resolution has, the field is that date written
    [YYYY-MM-DD]. *)
Theorem date_fields_of_record (item r snapshot raw : pyval) (name : string) :
  is_list item = false ->
  process_ads_data [item] = Ok [r] ->
  py_get item "snapshot" (PDict []) = Ok snapshot ->
  (name = "creation_time" /\ py_get snapshot "creation_time" PNone = Ok raw) \/
  (name = "end_date" /\ py_get item "endDate" PNone = Ok raw) ->
  (truthy raw = false -> format_date raw = Ok PNone /\ field r name = PNone) /\
  (forall ns, truthy raw = true -> to_datetime raw = Ok (Timestamp ns) ->
     let d := civil_from_days (ns / nanoseconds_per_day) in
     (1 <= year d <= 9999)%Z /\
     (four_digit_date d = true ->
      format_date raw = Ok (PStr (strftime_ymd d)) /\
      field r name = PStr (strftime_ymd d) /\
      strftime_ymd d = pad4 (year d) +:+ "-" +:+ pad2 (month d) +:+ "-" +:+ pad2 (day d)) /\
     ((timestamp_min <= ns <= timestamp_max)%Z -> four_digit_date d = true)).
Proof.
  intros Hitem Hr Hsnap Hraw. apply process_ads_data_single in Hr; [|exact Hitem].
  unfold Normalizer.process_record in Hr. unbind Hr.
  assert (x = snapshot) by congruence. subst x.
  assert (Hfield : exists v, format_date raw = Ok v /\ ensure_serializable v = Ok (field r name)).
  { destruct Hraw as [[-> Hraw]|[-> Hraw]].
    - assert (x2 = raw) by congruence. subst x2. exists x4. split; [exact Hx4|].
      exact (ensure_serializable_field _ r "creation_time" x4 Hr eq_refl).
    - assert (x3 = raw) by congruence. subst x3. exists x5. split; [exact Hx5|].
      exact (ensure_serializable_field _ r "end_date" x5 Hr eq_refl). }
  destruct Hfield as (v & Hv & Hens). split.
  - intros Hfalse. pose proof (format_date_none raw Hfalse) as Hnone.
    split; [exact Hnone|]. rewrite Hnone in Hv. injection Hv as <-.
    simpl in Hens. congruence.
  - intros ns Htrue Hts d. pose proof (format_date_timestamp raw ns Htrue Hts) as Hfmt.
    cbv zeta in Hfmt. fold d in Hfmt. split; [|split].
    + rewrite Hfmt in Hv.
      destruct (andb (1 <=? year d)%Z (year d <=? 9999)%Z) eqn:Hy; [|discriminate].
      apply andb_prop in Hy as [H1 H2]. apply Z.leb_le in H1, H2. lia.
    + intros Hfour. rewrite (four_digit_year d Hfour) in Hfmt.
      split; [exact Hfmt|]. split; [|exact (strftime_ymd_four_digits d Hfour)].
      rewrite Hfmt in Hv. injection Hv as <-. simpl in Hens. congruence.
    + intros Hrange. apply civil_from_days_four_digits, timestamp_day_range, Hrange.
Qed.

End DateClaims.

(** *** The query string of the link *)

Section QueryClaims.

Variable urlsplit : string -> result url_parts.
Variable unquote_escapes : string -> string.
Variable to_datetime : pyval -> result pd_value.

Local Abbreviation parse_qsl := (parse_qsl unquote_escapes).
Local Abbreviation parse_qs := (parse_qs unquote_escapes).
Local Abbreviation extract_from_url := (extract_from_url urlsplit unquote_escapes).
Local Abbreviation process_record := (process_record urlsplit unquote_escapes to_datetime).
Local Abbreviation process_ads_data := (process_ads_data urlsplit unquote_escapes to_datetime).

Ltac unbind H :=
  repeat match type of H with
         | mbind _ _ = Ok _ =>
             let x := fresh "x" in let Hx := fresh "Hx" in
             apply bind_ok in H as (x & Hx & H)
         end.

Lemma values_of_add_value (key n v : string) (d : list (string * list string)) :
  values_of key (add_value n v d) =
    if n =? key then
      Some (match values_of key d with Some vs => vs ++ [v] | None => [v] end)
    else values_of key d.
Proof.
  induction d as [|[n0 vs] d IH]; simpl.
  - destruct (n =? key); reflexivity.
  - destruct (String.eqb_spec n0 n) as [->|Hn0]; simpl.
    + destruct (n =? key); reflexivity.
    + rewrite IH. destruct (String.eqb_spec n key) as [->|Hn].
      * destruct (String.eqb_spec n0 key) as [->|_]; [congruence|reflexivity].
      * reflexivity.
Qed.

Lemma values_of_fold (key : string) (pairs : list (string * string)) :
  forall d,
  values_of key (fold_left (fun d nv => add_value (fst nv) (snd nv) d) pairs d) =
    match values_of key d, values_in key pairs with
    | Some vs, extra => Some (vs ++ extra)
    | None, [] => None
    | None, extra => Some extra
    end.
Proof.
  unfold values_in.
  induction pairs as [|[n v] pairs IH]; intros d; simpl.
  - destruct (values_of key d); [rewrite app_nil_r|]; reflexivity.
  - rewrite IH, values_of_add_value. simpl.
    destruct (n =? key); simpl.
    + destruct (values_of key d); [rewrite <- app_assoc|]; reflexivity.
    + reflexivity.
Qed.

(** [parse_qs(q).get(key, [''])[0]] is the first value the query has for
    the key, and [''] when it has none. *)
Lemma extract_from_url_text (url key : string) (parts : url_parts) :
  urlsplit url = Ok parts ->
  extract_from_url (PStr url) key =
    Ok (PStr (match values_in key (parse_qsl (query parts)) with
              | v :: _ => v
              | [] => ""
              end)).
Proof.
  intros Hsplit. unfold Normalizer.extract_from_url, urlparse. rewrite Hsplit. simpl.
  unfold Normalizer.parse_qs. rewrite values_of_fold. simpl.
  destruct (values_in key _); reflexivity.
Qed.

(** Values without bytes have members without bytes. *)
Lemma py_get_no_bytes (d : pyval) (k : string) (default v : pyval) :
  no_bytes d = true -> no_bytes default = true ->
  py_get d k default = Ok v -> no_bytes v = true.
Proof.
  destruct d as [| | | | | | |kvs]; try discriminate. simpl.
  intros Hd Hdef [= <-]. induction kvs as [|[k0 v0] kvs IH]; simpl; [exact Hdef|].
  simpl in Hd. apply andb_prop in Hd as [Hv0 Hd].
  destruct (k0 =? k); [exact Hv0|exact (IH Hd)].
Qed.

Lemma index0_no_bytes (v x : pyval) :
  no_bytes v = true -> index0 v = Ok x -> no_bytes x = true.
Proof.
  destruct v as [| | | |s|s|l|kvs]; try discriminate.
  - simpl. destruct (chars s); [discriminate|]. intros _ [= <-]. reflexivity.
  - destruct l as [|y l]; [discriminate|]. simpl. intros H [= <-].
    apply andb_prop in H as [H _]. exact H.
Qed.

Lemma extract_content_link_url_no_bytes (snapshot cards : pyval) (c : content) :
  no_bytes snapshot = true -> no_bytes cards = true ->
  extract_content snapshot cards = Ok c -> no_bytes (link_url c) = true.
Proof.
  intros Hs Hc. unfold extract_content.
  destruct (py_contains snapshot "link_url"); intros H; unbind H; injection H as <-; simpl.
  - exact (py_get_no_bytes snapshot "link_url" (PStr "") x Hs eq_refl Hx).
  - refine (py_get_no_bytes x "link_url" (PStr "") x0 _ eq_refl Hx0).
    destruct (truthy cards).
    + exact (index0_no_bytes _ _ Hc Hx).
    + injection Hx as <-. reflexivity.
Qed.

(** C8.  Of a single raw record of a decoded document that
    [process_ads_data] normalises to a record whose link is the text
    [url]: when the query string of the link is [sqs=abc&atxt=def] the
    keywords are [abc] and [atxt] is [def]; in general each of the two
    fields is the first value the query has for its key, and the empty
    text when the query has no value for the key. *)
Theorem query_values_of_link (item r : pyval) (url : string) (parts : url_parts) :
  is_list item = false ->
  no_bytes item = true ->
  process_ads_data [item] = Ok [r] ->
  field r "link_url" = PStr url ->
  urlsplit url = Ok parts ->
  (query parts = "sqs=abc&atxt=def" ->
     field r "keywords" = PStr "abc" /\ field r "atxt" = PStr "def") /\
  (forall key name, (key = "sqs" /\ name = "keywords") \/ (key = "atxt" /\ name = "atxt") ->
     (forall v rest, values_in key (parse_qsl (query parts)) = v :: rest ->
                     field r name = PStr v) /\
     (values_in key (parse_qsl (query parts)) = [] -> field r name = PStr "")).
Proof.
  intros Hitem Hjson Hr Hlink Hsplit.
  apply process_ads_data_single in Hr; [|exact Hitem].
  unfold Normalizer.process_record in Hr. unbind Hr.
  pose proof (py_get_no_bytes item "snapshot" (PDict []) x Hjson eq_refl Hx) as Hsnap.
  pose proof (py_get_no_bytes x "cards" (PList [PDict []]) x0 Hsnap eq_refl Hx0) as Hcards.
  pose proof (extract_content_link_url_no_bytes x x0 x1 Hsnap Hcards Hx1) as Hnb.
  pose proof (ensure_serializable_field _ r "link_url" _ Hr eq_refl) as Hl.
  rewrite (ensure_serializable_no_bytes _ Hnb), Hlink in Hl. injection Hl as Hl.
  rewrite Hl in Hx13, Hx14.
  rewrite (extract_from_url_text url "sqs" parts Hsplit) in Hx13.
  rewrite (extract_from_url_text url "atxt" parts Hsplit) in Hx14.
  injection Hx13 as <-. injection Hx14 as <-.
  pose proof (ensure_serializable_field _ r "keywords" _ Hr eq_refl) as Hk.
  pose proof (ensure_serializable_field _ r "atxt" _ Hr eq_refl) as Ha.
  simpl in Hk, Ha. injection Hk as Hk. injection Ha as Ha.
  split.
  - intros Hq. rewrite Hq in Hk, Ha. split; [rewrite <- Hk|rewrite <- Ha]; reflexivity.
  - intros key name [[-> ->]|[-> ->]]; split.
    + intros v rest Hv. rewrite Hv in Hk. congruence.
    + intros Hv. rewrite Hv in Hk. congruence.
    + intros v rest Hv. rewrite Hv in Ha. congruence.
    + intros Hv. rewrite Hv in Ha. congruence.
Qed.

End QueryClaims.

(** *** A record without a card *)

Section MissingCard.

Variable urlsplit : string -> result url_parts.
Variable unquote_escapes : string -> string.
Variable to_datetime : pyval -> result pd_value.

Local Abbreviation format_date := (format_date to_datetime).
Local Abbreviation process_record := (process_record urlsplit unquote_escapes to_datetime).
Local Abbreviation process_ads_data := (process_ads_data urlsplit unquote_escapes to_datetime).

(** With no [link_url] on the snapshot and no card to read, every content
    field is the empty text. *)
Lemma extract_content_missing_card (snapshot : list (string * pyval)) :
  assoc "link_url" snapshot = None ->
  assoc "cards" snapshot = None \/ assoc "cards" snapshot = Some (PList []) ->
  exists cards,
    py_get (PDict snapshot) "cards" (PList [PDict []]) = Ok cards /\
    extract_content (PDict snapshot) cards =
      Ok {| link_url := PStr ""; original_image_url := PStr "";
            original_video_url := PStr ""; body := PStr ""; cta_text := PStr "";
            title := PStr ""; link_description := PStr "" |}.
Proof.
  intros Hlink [Hcards|Hcards]; eexists; (split; [simpl; rewrite Hcards; reflexivity|]);
    unfold extract_content; simpl; rewrite Hlink; reflexivity.
Qed.

Lemma no_bytes_get (kvs : list (string * pyval)) (k : string) (default : pyval) :
  forallb (fun kv => no_bytes (snd kv)) kvs = true -> no_bytes default = true ->
  no_bytes (match assoc k kvs with Some v => v | None => default end) = true.
Proof.
  intros Hkvs Hdef.
  exact (py_get_no_bytes (PDict kvs) k default _ Hkvs Hdef eq_refl).
Qed.

Lemma format_date_no_bytes (raw v : pyval) : format_date raw = Ok v -> no_bytes v = true.
Proof.
  unfold Normalizer.format_date. destruct (truthy raw); [|intros [= <-]; reflexivity].
  intros H. apply bind_ok in H as (t & _ & H).
  destruct t as [ns| |formatted]; simpl in H; try discriminate.
  - destruct (andb _ _); [|discriminate]. injection H as <-. reflexivity.
  - injection H as <-.
    simpl. induction formatted as [|[text|] l IH]; simpl; auto.
Qed.

(** C10.  A record whose snapshot has no [link_url] and no card, and
    whose creation time is a value that pandas coerces to [NaT], is not
    normalised: the function raises. *)
Theorem missing_card_record_raises (item snapshot : list (string * pyval)) (raw : pyval) :
  assoc "snapshot" item = Some (PDict snapshot) ->
  assoc "link_url" snapshot = None ->
  assoc "cards" snapshot = None \/ assoc "cards" snapshot = Some (PList []) ->
  assoc "creation_time" snapshot = Some raw ->
  truthy raw = true ->
  to_datetime raw = Ok NaT ->
  process_ads_data [PDict item] = Raise (ValueError "NaTType does not support strftime").
Proof.
  intros Hsnap Hlink Hcards Hraw Htrue Hnat.
  destruct (extract_content_missing_card snapshot Hlink Hcards) as (cards & Hget & Hcontent).
  rewrite process_ads_data_singleton, process_item_single by reflexivity.
  unfold Normalizer.process_record.
  replace (py_get (PDict item) "snapshot" (PDict [])) with (Ok (PDict snapshot))
    by (simpl; rewrite Hsnap; reflexivity).
  cbn [mbind result_bind]. rewrite Hget. cbn [mbind result_bind]. rewrite Hcontent.
  cbn [mbind result_bind].
  replace (py_get (PDict snapshot) "creation_time" PNone) with (Ok raw)
    by (simpl; rewrite Hraw; reflexivity).
  cbn [mbind result_bind py_get].
  rewrite (format_date_nat to_datetime raw Htrue Hnat). reflexivity.
Qed.

Hypothesis urlsplit_empty : urlsplit "" = Ok {| netloc := ""; query := "" |}.

(** What holds of the missing card itself: it costs no exception, and
    when the two dates can be converted the record is produced with every
    content field empty. *)
Lemma missing_card_defaults (item snapshot : list (string * pyval)) (creation_time end_date : pyval) :
  (assoc "snapshot" item = None /\ snapshot = []) \/
  assoc "snapshot" item = Some (PDict snapshot) ->
  assoc "link_url" snapshot = None ->
  assoc "cards" snapshot = None \/ assoc "cards" snapshot = Some (PList []) ->
  no_bytes (PDict item) = true ->
  format_date (match assoc "creation_time" snapshot with Some v => v | None => PNone end)
    = Ok creation_time ->
  format_date (match assoc "endDate" item with Some v => v | None => PNone end)
    = Ok end_date ->
  exists r, process_ads_data [PDict item] = Ok [r] /\
    field r "link_url" = PStr "" /\ field r "body" = PStr "" /\
    field r "cta_text" = PStr "" /\ field r "title" = PStr "" /\
    field r "original_image_url" = PStr "" /\ field r "original_video_url" = PStr "" /\
    field r "link_description" = PStr "".
Proof.
  intros Hsnap Hlink Hcards Hjson Hct Hed.
  destruct (extract_content_missing_card snapshot Hlink Hcards) as (cards & Hget & Hcontent).
  assert (Hs : py_get (PDict item) "snapshot" (PDict []) = Ok (PDict snapshot)).
  { simpl. destruct Hsnap as [[-> ->]| ->]; reflexivity. }
  assert (Hsnb : no_bytes (PDict snapshot) = true)
    by exact (py_get_no_bytes (PDict item) "snapshot" (PDict []) _ Hjson eq_refl Hs).
  rewrite process_ads_data_singleton, process_item_single by reflexivity.
  unfold Normalizer.process_record.
  rewrite Hs. cbn [mbind result_bind]. rewrite Hget. cbn [mbind result_bind].
  rewrite Hcontent. cbn [mbind result_bind py_get]. rewrite Hct. cbn [mbind result_bind].
  rewrite Hed. cbn [mbind result_bind link_url body cta_text title original_image_url
                      original_video_url link_description].
  unfold Normalizer.extract_domain, Normalizer.extract_from_url, urlparse.
  rewrite urlsplit_empty. cbn -[ensure_serializable].
  match goal with |- context [ensure_serializable ?d] => set (record := d) end.
  assert (Hrec : no_bytes record = true).
  { subst record. simpl in Hjson, Hsnb |- *.
    rewrite !(no_bytes_get item _ _ Hjson) by reflexivity.
    rewrite !(no_bytes_get snapshot _ _ Hsnb) by reflexivity.
    rewrite (format_date_no_bytes _ _ Hct), (format_date_no_bytes _ _ Hed).
    reflexivity. }
  exists record. rewrite (ensure_serializable_no_bytes record Hrec).
  split; [reflexivity|]. subst record. repeat split.
Qed.

End MissingCard.

(** *** The normaliser on concrete records *)

(** The two scenarios of the specification. *)
Example flat_entry_scenario :
  exists r, normalize [flat_entry] = Ok [r] /\
    field r "domain" = PStr "x.com" /\ field r "keywords" = PStr "k1" /\
    field r "title" = PStr "T" /\ field r "original_image_url" = PStr "".
Proof. eexists. repeat split. Qed.

Example carded_entry_scenario :
  exists r, normalize [carded_entry] = Ok [r] /\
    field r "body" = PStr "hi" /\ field r "domain" = PStr "y.com".
Proof. eexists. repeat split. Qed.

(** A timestamp of 2023, and an end date of zero, which is read as no
    date. *)
Lemma tagged_entry_dates :
  exists r, normalize [tagged_entry] = Ok [r] /\
    field r "creation_time" = PStr "2023-11-14" /\
    field r "end_date" = PNone.
Proof.
  eexists. split; [reflexivity|]. split.
  - exact (proj1 (proj2 (proj1 (proj2 (proj2 (date_fields_of_record urlsplit_generic
             unquote_nothing to_datetime_epoch tagged_entry _ _ (PInt 1700000000)
             "creation_time" eq_refl eq_refl eq_refl (or_introl (conj eq_refl eq_refl)))
           1700000000000000000%Z eq_refl eq_refl)) eq_refl))).
  - exact (proj2 (proj1 (date_fields_of_record urlsplit_generic unquote_nothing
             to_datetime_epoch tagged_entry _ _ (PInt 0) "end_date"
             eq_refl eq_refl eq_refl (or_intror (conj eq_refl eq_refl))) eq_refl)).
Defined.

(** C5 (as stated) fails: an end date of zero is present and is the
    epoch, 1970-01-01, yet the field is left [None]. *)
Lemma zero_end_date_is_dropped :
  exists r, normalize [tagged_entry] = Ok [r] /\
    py_get tagged_entry "endDate" PNone = Ok (PInt 0) /\
    to_datetime_epoch (PInt 0) = Ok (Timestamp 0) /\
    strftime_ymd (civil_from_days (0 / nanoseconds_per_day)) = "1970-01-01" /\
    field r "end_date" = PNone.
Proof. eexists. repeat split. Qed.

(** What [strftime] does at the ends of its range: a year below 1000
    is written without leading zeros, and a timestamp of the year 10000
    cannot be written. *)
Example strftime_at_the_edges :
  strftime_ymd {| year := 999; month := 1; day := 2 |} = "999-01-02" /\
  Normalizer.strftime (Timestamp (253402300800 * 1000000000)) = Raise NotImplementedError /\
  Normalizer.strftime (Timestamp 1700000000000000000) = Ok (PStr "2023-11-14").
Proof. repeat split. Qed.

(** A group that holds a group, between two single entries: the three
    single entries of the group give three records, in their order. *)
Lemma nested_group_in_place :
  let group := [carded_entry; PList [tagged_entry; flat_entry]] in
  let a := records_of [flat_entry] in
  let g := records_of [carded_entry; tagged_entry; flat_entry] in
  let c := records_of [tagged_entry] in
  flat_map flatten group = [carded_entry; tagged_entry; flat_entry] /\
  normalize ([flat_entry] ++ PList group :: [tagged_entry]) = Ok (a ++ g ++ c) /\
  length g = 3 /\
  Forall (fun r => is_canonical r = true) g.
Proof.
  intros group a g c. split; [reflexivity|].
  assert (Hg : Forall2 (fun leaf r => process_record urlsplit_generic unquote_nothing
                                        to_datetime_epoch leaf = Ok r)
                 (flat_map flatten group) g).
  { subst g group.
    let v := eval vm_compute in (records_of [carded_entry; tagged_entry; flat_entry]) in
    change (records_of [carded_entry; tagged_entry; flat_entry]) with v.
    repeat constructor. }
  exact (proj1 (proj2 (group_is_flattened_in_place urlsplit_generic unquote_nothing
                         to_datetime_epoch [flat_entry] group [tagged_entry]))
           a g c eq_refl Hg eq_refl).
Defined.

(** The link of the tagged entry. *)
Lemma tagged_entry_query :
  exists r, normalize [tagged_entry] = Ok [r] /\
    field r "link_url" = PStr "https://z.com/l?sqs=abc&atxt=def" /\
    field r "keywords" = PStr "abc" /\ field r "atxt" = PStr "def".
Proof.
  eexists. split; [reflexivity|]. split; [reflexivity|].
  exact (proj1 (query_values_of_link urlsplit_generic unquote_nothing to_datetime_epoch
                  tagged_entry _ "https://z.com/l?sqs=abc&atxt=def"
                  {| netloc := "z.com"; query := "sqs=abc&atxt=def" |}
                  eq_refl eq_refl eq_refl eq_refl eq_refl) eq_refl).
Defined.

(** A record without link and card whose creation time is the text
    [abc]. *)
Lemma undated_entry_raises :
  to_datetime_epoch (PStr "abc") = Ok NaT /\
  normalize [undated_entry] = Raise (ValueError "NaTType does not support strftime").
Proof.
  split; [reflexivity|].
  exact (missing_card_record_raises urlsplit_generic unquote_nothing to_datetime_epoch
           [("snapshot", PDict [("creation_time", PStr "abc")]); ("adid", PStr "4")]
           [("creation_time", PStr "abc")] (PStr "abc")
           eq_refl eq_refl (or_introl eq_refl) eq_refl eq_refl eq_refl).
Defined.

(** The same record without the creation time is normalised, with every
    content field empty. *)
Example missing_card_scenario :
  exists r, normalize [PDict [("snapshot", PDict [("cards", PList [])]); ("adid", PStr "4")]]
            = Ok [r] /\
    field r "link_url" = PStr "" /\ field r "body" = PStr "" /\ field r "title" = PStr "".
Proof. eexists. repeat split. Qed.

(** * Further properties *)

(** ** The parameter set of a search *)

Section QueryBuilderMore.

Variables (session_id ad_status country v_value : string).
Variables (start_date end_date : date).

(** X1.  The parameter set [get_params_config] returns has the nine
    common keys and the two keys of its mode, and no other: a keyword
    search has [q] and no [view_all_page_id], a page search the
    reverse. *)
Theorem get_params_config_keys (config_type : string) (page query : option string)
    (p : gmap string pyval) :
  get_params_config config_type session_id ad_status country
    start_date end_date page query v_value = Ok p ->
  dom p =
    {[ "session_id"; "count"; "active_status"; "ad_type"; "country[0]"; "media_type";
       "start_date"; "end_date"; "v"; "search_type" ]}
    ∪ (if config_type =? "keyword" then {[ "q" ]} else {[ "view_all_page_id" ]}).
Proof.
  unfold get_params_config, common_params. intros H.
  destruct (config_type =? "keyword").
  - destruct (not_given query); [discriminate|]. injection H as <-.
    rewrite dom_union_L, !dom_insert_L, !dom_empty_L. set_solver.
  - destruct (config_type =? "page"); [|discriminate].
    destruct (not_given page); [discriminate|]. injection H as <-.
    rewrite dom_union_L, !dom_insert_L, !dom_empty_L. set_solver.
Qed.

(** X2.  Whatever the mode, the query and the page, the common filters
    reach the parameter set as they were given: the session, the country
    and the version verbatim, a date of four digits written
    [YYYY-MM-DD], thirty results a page, and the status in capitals,
    [ALL] standing for [Both] (the three statuses the form offers are
    spelled out). *)
Theorem get_params_config_common (config_type : string) (page query : option string)
    (p : gmap string pyval) :
  get_params_config config_type session_id ad_status country
    start_date end_date page query v_value = Ok p ->
  p !! "session_id" = Some (PStr session_id) /\
  p !! "country[0]" = Some (PStr country) /\
  p !! "v" = Some (PStr v_value) /\
  (four_digit_date start_date = true ->
   p !! "start_date" =
     Some (PStr (pad4 (year start_date) +:+ "-" +:+ pad2 (month start_date) +:+ "-"
                 +:+ pad2 (day start_date)))) /\
  (four_digit_date end_date = true ->
   p !! "end_date" =
     Some (PStr (pad4 (year end_date) +:+ "-" +:+ pad2 (month end_date) +:+ "-"
                 +:+ pad2 (day end_date)))) /\
  p !! "count" = Some (PStr "30") /\
  p !! "ad_type" = Some (PStr "all") /\
  p !! "media_type" = Some (PStr "all") /\
  (ad_status = "Both" -> p !! "active_status" = Some (PStr "ALL")) /\
  (ad_status = "Active" -> p !! "active_status" = Some (PStr "ACTIVE")) /\
  (ad_status = "Paused" -> p !! "active_status" = Some (PStr "PAUSED")).
Proof.
  unfold get_params_config. intros H.
  assert (Hp : exists extra, p = common_params session_id ad_status country
                                   start_date end_date v_value ∪ extra).
  { destruct (config_type =? "keyword");
      [destruct (not_given query); [discriminate|]
      |destruct (config_type =? "page"); [destruct (not_given page); [discriminate|]
                                         |discriminate]];
      injection H as <-; eauto. }
  destruct Hp as (extra & ->).
  do 3 (split; [apply lookup_union_Some_l; reflexivity|]).
  split; [intros Hd; rewrite <- (strftime_ymd_four_digits _ Hd);
          apply lookup_union_Some_l; reflexivity|].
  split; [intros Hd; rewrite <- (strftime_ymd_four_digits _ Hd);
          apply lookup_union_Some_l; reflexivity|].
  do 3 (split; [apply lookup_union_Some_l; reflexivity|]).
  split; [|split]; intros ->; apply lookup_union_Some_l; reflexivity.
Qed.

End QueryBuilderMore.

(** A page search: its keys and its common filters. *)
Lemma page_search_keys :
  exists p,
    get_params_config "page" "s" "Paused" "CA"
      {| year := 2024; month := 1; day := 2 |} {| year := 2024; month := 3; day := 4 |}
      (Some "123") None "2c4a00" = Ok p /\
    dom p = {[ "session_id"; "count"; "active_status"; "ad_type"; "country[0]";
               "media_type"; "start_date"; "end_date"; "v"; "search_type" ]}
            ∪ {[ "view_all_page_id" ]}.
Proof.
  eexists. split; [reflexivity|].
  exact (get_params_config_keys "s" "Paused" "CA" "2c4a00"
           {| year := 2024; month := 1; day := 2 |} {| year := 2024; month := 3; day := 4 |}
           "page" (Some "123") None _ eq_refl).
Defined.

Lemma page_search_common :
  exists p,
    get_params_config "page" "s" "Paused" "CA"
      {| year := 2024; month := 1; day := 2 |} {| year := 2024; month := 3; day := 4 |}
      (Some "123") None "2c4a00" = Ok p /\
    p !! "start_date" = Some (PStr "2024-01-02") /\
    p !! "active_status" = Some (PStr "PAUSED").
Proof.
  eexists. split; [reflexivity|].
  pose proof (get_params_config_common "s" "Paused" "CA" "2c4a00"
                {| year := 2024; month := 1; day := 2 |}
                {| year := 2024; month := 3; day := 4 |}
                "page" (Some "123") None _ eq_refl)
    as (_ & _ & _ & Hs & _ & _ & _ & _ & _ & _ & Ha).
  split; [exact (Hs eq_refl)|exact (Ha eq_refl)].
Defined.

(** ** The chain of requests *)

Section PaginatorMore.

Variable post : nat -> gmap string pyval -> reply.
Variable loads : string -> result pyval.

Local Abbreviation more_pages := (more_pages loads).
Local Abbreviation final := (final loads).
Local Abbreviation loop := (loop post loads).
Local Abbreviation get_ads_data_for_domain := (get_ads_data_for_domain post loads).

Lemma loop_lengths fuel : forall n s,
  length (sent (loop fuel n s)) = length (received (loop fuel n s)) /\
  length (received (loop fuel n s)) <= fuel.
Proof.
  induction fuel as [|fuel IH]; intros n s; simpl; [split; lia|].
  destruct (iteration post loads n s) as [s'|acc|e]; simpl; [|split; lia..].
  destruct (IH (S n) s'). split; lia.
Qed.

Lemma loop_sent_before fuel n s k q :
  sent (loop fuel n s) !! S k = Some q -> exists q0, sent (loop fuel n s) !! k = Some q0.
Proof.
  intros H. apply lookup_lt_is_Some_2.
  apply lookup_lt_Some in H. lia.
Qed.

(** X3.  The search itself never changes along the cursor chain: in
    every request the function sends, each parameter other than
    [forward_cursor] and [collation_token] is as in the parameter set the
    function was given. *)
Theorem requests_keep_the_search (fuel : nat) (params0 : gmap string pyval)
    (k : nat) (q : gmap string pyval) (key : string) :
  sent (get_ads_data_for_domain fuel params0) !! k = Some q ->
  key <> "forward_cursor" -> key <> "collation_token" ->
  q !! key = params0 !! key.
Proof.
  intros Hq H1 H2. revert q Hq. induction k as [|k IH]; intros q Hq.
  - apply loop_first_request in Hq. subst q. reflexivity.
  - destruct (loop_sent_before _ _ _ _ _ Hq) as (q0 & Hq0).
    destruct (loop_next_request post loads fuel 0 (initial params0) k q0 q Hq0 Hq)
      as (d & _ & _ & ->).
    rewrite !lookup_insert_ne by congruence. exact (IH q0 Hq0).
Qed.

(** X4.  Every request after the first carries a cursor that is not
    empty, and a collation token (which may be [None]). *)
Theorem later_requests_carry_a_cursor (fuel : nat) (params0 : gmap string pyval)
    (k : nat) (q : gmap string pyval) :
  sent (get_ads_data_for_domain fuel params0) !! S k = Some q ->
  exists cursor token,
    q !! "forward_cursor" = Some cursor /\ truthy cursor = true /\
    q !! "collation_token" = Some token.
Proof.
  intros Hq. destruct (loop_sent_before _ _ _ _ _ Hq) as (q0 & Hq0).
  destruct (loop_next_request post loads fuel 0 (initial params0) k q0 q Hq0 Hq)
    as (d & _ & Hc & ->).
  exists (entry_or_none d "forwardCursor"), (entry_or_none d "collationToken").
  split; [|split; [exact Hc|]].
  - rewrite lookup_insert_ne by discriminate. apply lookup_insert_eq.
  - apply lookup_insert_eq.
Qed.

(** X5.  The function sends one request for each reply it reads, never
    more than its fuel, and none after a final reply: a final reply is
    the last one. *)
Theorem no_request_after_a_final_reply (fuel : nat) (params0 : gmap string pyval) :
  let R := get_ads_data_for_domain fuel params0 in
  length (sent R) = length (received R) /\
  length (received R) <= fuel /\
  forall k r, received R !! k = Some r -> final r -> length (received R) = S k.
Proof.
  intros R.
  destruct (loop_lengths fuel 0 (initial params0)) as (Hlen & Hle).
  split; [exact Hlen|]. split; [exact Hle|].
  intros k r Hk Hfin.
  destruct (loop_shape post loads fuel 0 (initial params0))
    as [(_ & Hall & _)|(pre & r' & Hrec & Hall & _ & _)].
  - exfalso. rewrite Forall_forall in Hall.
    apply (more_pages_not_final loads r); [|exact Hfin].
    apply Hall. apply list_elem_of_lookup. eauto.
  - fold (get_ads_data_for_domain fuel params0) in Hrec. fold R in Hrec.
    rewrite Hrec in Hk |- *. rewrite length_app. simpl.
    destruct (decide (k < length pre)) as [Hlt|Hge].
    + exfalso. rewrite lookup_app_l in Hk by exact Hlt.
      rewrite Forall_forall in Hall.
      apply (more_pages_not_final loads r); [|exact Hfin].
      apply Hall. apply list_elem_of_lookup. eauto.
    + apply lookup_lt_Some in Hk. rewrite length_app in Hk. simpl in Hk. lia.
Qed.

End PaginatorMore.

Lemma handle_reply_same_body loads q s r1 r2 :
  same_body r1 r2 -> handle_reply loads q s r1 = handle_reply loads q s r2.
Proof.
  destruct r1, r2; simpl; intros H; try contradiction; subst; reflexivity.
Qed.

Lemma loop_same_body loads post1 post2 :
  (forall n q, same_body (post1 n q) (post2 n q)) ->
  forall fuel n s,
    sent (loop post1 loads fuel n s) = sent (loop post2 loads fuel n s) /\
    outcome (loop post1 loads fuel n s) = outcome (loop post2 loads fuel n s).
Proof.
  intros Hsame. induction fuel as [|fuel IH]; intros n s; simpl; [auto|].
  unfold iteration.
  rewrite (handle_reply_same_body loads _ s _ _ (Hsame n (request_params s))).
  destruct (handle_reply loads (request_params s) s (post2 n (request_params s)))
    as [s'|acc|e]; simpl; [|auto..].
  destruct (IH (S n) s') as (-> & ->). auto.
Qed.

(** X7.  The status code of a response is never looked at: two servers
    whose replies differ in their status codes only are sent the same
    requests and give the same result, records or exception. *)
Theorem status_code_is_ignored (loads : string -> result pyval)
    (post1 post2 : nat -> gmap string pyval -> reply)
    (fuel : nat) (params0 : gmap string pyval) :
  (forall n q, same_body (post1 n q) (post2 n q)) ->
  sent (get_ads_data_for_domain post1 loads fuel params0)
    = sent (get_ads_data_for_domain post2 loads fuel params0) /\
  outcome (get_ads_data_for_domain post1 loads fuel params0)
    = outcome (get_ads_data_for_domain post2 loads fuel params0).
Proof. intros Hsame. apply loop_same_body. exact Hsame. Qed.

Lemma lstrip_fixed (s chars : string) :
  lstrip s chars = s <->
  match s with EmptyString => True | String c _ => mem_char c chars = false end.
Proof.
  split.
  - intros H. pose proof (lstrip_head s chars) as Hh. rewrite H in Hh. exact Hh.
  - destruct s as [|c s]; simpl; [reflexivity|]. intros ->. reflexivity.
Qed.

(** X8.  The text handed to the decoder is the body without the fixed
    prefix exactly when what follows the prefix (or the body, when it has
    no prefix) is empty or starts with a character that is none of
    [f o r ( ; )] and no space; a JSON object or array always does. *)
Theorem decoder_input_is_prefix_removal_iff (text : string) :
  decoder_input text = spec_decoder_input text <->
  match spec_decoder_input text with
  | EmptyString => True
  | String c _ => mem_char c hijack_prefix = false
  end.
Proof.
  rewrite decoder_input_strips_further. apply lstrip_fixed.
Qed.

(** The run over the three pages: its requests keep the search. *)
Lemma three_pages_keep_the_query :
  sent (get_ads_data_for_domain serve_three (loads_table three_pages) 5
          (keyword_params "shoes")) !! 2
    = Some (<["collation_token" := PStr "t2"]>
              (<["forward_cursor" := PStr "c2"]> (keyword_params "shoes"))) /\
  (<["collation_token" := PStr "t2"]>
     (<["forward_cursor" := PStr "c2"]> (keyword_params "shoes")) : gmap string pyval) !! "q"
    = keyword_params "shoes" !! "q".
Proof.
  split; [reflexivity|].
  apply (requests_keep_the_search serve_three (loads_table three_pages) 5
           (keyword_params "shoes") 2); [reflexivity|discriminate|discriminate].
Defined.

Lemma three_pages_second_request :
  exists q cursor token,
    sent (get_ads_data_for_domain serve_three (loads_table three_pages) 5
            (keyword_params "shoes")) !! 1 = Some q /\
    q !! "forward_cursor" = Some cursor /\ truthy cursor = true /\
    q !! "collation_token" = Some token.
Proof.
  eexists. 
  destruct (later_requests_carry_a_cursor serve_three (loads_table three_pages) 5
              (keyword_params "shoes") 0 _ eq_refl) as (cursor & token & H).
  exists cursor, token. split; [reflexivity|exact H].
Defined.

Lemma three_pages_any_status :
  (forall n q, same_body (serve_three n q) (Samples.with_status 503 serve_three n q)) /\
  outcome (get_ads_data_for_domain (Samples.with_status 503 serve_three)
             (loads_table three_pages) 5 (keyword_params "shoes"))
    = Some (Ok [ad "1"; ad "2"; ad "3"; ad "4"]).
Proof.
  assert (Hsame : forall n q,
             same_body (serve_three n q) (Samples.with_status 503 serve_three n q)).
  { intros n q. unfold Samples.with_status. destruct (serve_three n q); reflexivity. }
  split; [exact Hsame|].
  rewrite <- (proj2 (status_code_is_ignored (loads_table three_pages) serve_three
                       (Samples.with_status 503 serve_three) 5 (keyword_params "shoes")
                       Hsame)).
  reflexivity.
Defined.

(** ** The normaliser, entry by entry *)

(** Takes a successful run of binds apart. *)
Ltac unbind_all H :=
  repeat match type of H with
         | mbind _ _ = Ok _ =>
             let x := fresh "x" in let Hx := fresh "Hx" in
             apply bind_ok in H as (x & Hx & H)
         end.

(** X9.  [ensure_serializable] is idempotent: what it returns has no
    bytes left, and it returns it unchanged when applied again. *)
Theorem ensure_serializable_idempotent (v v' : pyval) :
  ensure_serializable v = Ok v' ->
  no_bytes v' = true /\ ensure_serializable v' = Ok v'.
Proof.
  intros H. apply ensure_serializable_result in H.
  split; [exact H|]. apply ensure_serializable_no_bytes. exact H.
Qed.

Lemma ensure_members_fails (l : list pyval) :
  Forall (fun v => is_ok (ensure_serializable v) = decodable v /\
                   forall e, ensure_serializable v = Raise e -> e = UnicodeDecodeError) l ->
  is_ok (ensure_members l) = forallb decodable l /\
  forall e, ensure_members l = Raise e -> e = UnicodeDecodeError.
Proof.
  induction 1 as [|x l [Hx1 Hx2] _ [IH1 IH2]]; simpl; [split; [reflexivity|discriminate]|].
  rewrite <- Hx1, <- IH1.
  destruct (ensure_serializable x) as [x'|ex]; simpl.
  - destruct (ensure_members l) as [r|el]; simpl; (split; [reflexivity|]).
    + discriminate.
    + intros e [= <-]. apply IH2. reflexivity.
  - split; [reflexivity|]. intros e [= <-]. apply Hx2. reflexivity.
Qed.

Lemma ensure_items_fails (kvs : list (string * pyval)) :
  Forall (fun kv => is_ok (ensure_serializable (snd kv)) = decodable (snd kv) /\
                    forall e, ensure_serializable (snd kv) = Raise e ->
                              e = UnicodeDecodeError) kvs ->
  is_ok (ensure_items kvs) = forallb (fun kv => decodable (snd kv)) kvs /\
  forall e, ensure_items kvs = Raise e -> e = UnicodeDecodeError.
Proof.
  induction 1 as [|x l [Hx1 Hx2] _ [IH1 IH2]]; simpl; [split; [reflexivity|discriminate]|].
  rewrite <- Hx1, <- IH1.
  destruct (ensure_serializable (snd x)) as [x'|ex]; simpl.
  - destruct (ensure_items l) as [r|el]; simpl; (split; [reflexivity|]).
    + discriminate.
    + intros e [= <-]. apply IH2. reflexivity.
  - split; [reflexivity|]. intros e [= <-]. apply Hx2. reflexivity.
Qed.

(** X10.  [ensure_serializable] returns exactly when every [bytes] in
    the value, at any depth, is well-formed UTF-8, and the only exception
    it raises is [UnicodeDecodeError]. *)
Theorem ensure_serializable_fails_on_bad_bytes_only (v : pyval) :
  is_ok (ensure_serializable v) = decodable v /\
  forall e, ensure_serializable v = Raise e -> e = UnicodeDecodeError.
Proof.
  induction v as [| | | | |b|l IH|kvs IH] using pyval_nested_ind;
    try (split; [reflexivity|discriminate]).
  - simpl. unfold decode_utf8. destruct (utf8_valid (bytes_of b)); simpl.
    + split; [reflexivity|discriminate].
    + split; [reflexivity|]. intros e [= <-]. reflexivity.
  - rewrite ensure_serializable_list.
    destruct (ensure_members_fails l IH) as [H1 H2].
    change (decodable (PList l)) with (forallb decodable l). rewrite <- H1.
    destruct (ensure_members l) as [l'|el]; simpl; (split; [reflexivity|]).
    + discriminate.
    + intros e [= <-]. apply H2. reflexivity.
  - rewrite ensure_serializable_dict.
    destruct (ensure_items_fails kvs IH) as [H1 H2].
    change (decodable (PDict kvs)) with (forallb (fun kv => decodable (snd kv)) kvs).
    rewrite <- H1.
    destruct (ensure_items kvs) as [l'|el]; simpl; (split; [reflexivity|]).
    + discriminate.
    + intros e [= <-]. apply H2. reflexivity.
Qed.

Section NormalizerMore.

Variable urlsplit : string -> result url_parts.
Variable unquote_escapes : string -> string.
Variable to_datetime : pyval -> result pd_value.

Local Abbreviation extract_domain := (extract_domain urlsplit).
Local Abbreviation extract_from_url := (extract_from_url urlsplit unquote_escapes).
Local Abbreviation process_record := (process_record urlsplit unquote_escapes to_datetime).
Local Abbreviation process_item := (process_item urlsplit unquote_escapes to_datetime).
Local Abbreviation process_ads_data := (process_ads_data urlsplit unquote_escapes to_datetime).

(** X11.  What [process_ads_data] returns is the list of the records of
    the single entries of its argument, taken depth first through every
    level of grouping: one record for each, in their order, and it
    returns exactly when each of them can be made into a record. *)
Theorem one_record_per_single_entry (ads_data out : list pyval) :
  (process_ads_data ads_data = Ok out <->
   Forall2 (fun leaf r => process_record leaf = Ok r) (flat_map flatten ads_data) out) /\
  (process_ads_data ads_data = Ok out ->
   length out = length (flat_map flatten ads_data)).
Proof.
  split; [apply process_ads_data_leaves|].
  intros H. apply process_ads_data_leaves in H.
  symmetry. eapply Forall2_length. exact H.
Qed.

(** X12.  Nothing is returned when an entry fails: the exception of the
    first entry that cannot be processed is the exception of the whole
    call, whatever records the entries before it gave and whatever comes
    after it. *)
Theorem first_failing_entry_aborts (before after done : list pyval) (item : pyval) (e : exn) :
  process_ads_data before = Ok done ->
  process_item item = Raise e ->
  process_ads_data (before ++ item :: after) = Raise e.
Proof.
  intros Hb Hi. rewrite process_ads_data_app, Hb. simpl. rewrite Hi. reflexivity.
Qed.

(** X13.  An entry that is neither a list nor an object, and an object
    whose [snapshot] is not an object ([null], a text, a number), make
    the call raise [AttributeError]. *)
Theorem malformed_entry_raises (item : pyval) :
  is_list item = false ->
  is_dict item = false \/
  (exists kvs s, item = PDict kvs /\ assoc "snapshot" kvs = Some s /\ is_dict s = false) ->
  process_ads_data [item] = Raise AttributeError.
Proof.
  intros Hitem H. rewrite process_ads_data_singleton, process_item_single by exact Hitem.
  destruct H as [H|(kvs & s & -> & Hs & Hd)].
  - destruct item; try discriminate; reflexivity.
  - unfold Normalizer.process_record. simpl. rewrite Hs. simpl.
    destruct s; try discriminate; reflexivity.
Qed.

(** X14.  When the snapshot has a [link_url], its [cards] are never
    looked at: two entries that differ only in what their snapshots hold
    under [cards], be it a number or [null], give the same record. *)
Theorem flat_record_ignores_cards (item1 item2 snapshot1 snapshot2 : list (string * pyval)) :
  assoc "snapshot" item1 = Some (PDict snapshot1) ->
  assoc "snapshot" item2 = Some (PDict snapshot2) ->
  (forall k, k <> "snapshot" -> assoc k item1 = assoc k item2) ->
  (forall k, k <> "cards" -> assoc k snapshot1 = assoc k snapshot2) ->
  assoc "link_url" snapshot1 <> None ->
  process_record (PDict item1) = process_record (PDict item2).
Proof.
  intros Hs1 Hs2 Hitem Hsnap Hl. unfold Normalizer.process_record.
  cbn [py_get mbind result_bind]. rewrite Hs1, Hs2. cbn [mbind result_bind].
  unfold extract_content, first_media. cbn [py_contains py_get mbind result_bind].
  repeat match goal with
         | |- context [assoc ?k item1] => rewrite (Hitem k) by discriminate
         end.
  repeat match goal with
         | |- context [assoc ?k snapshot1] =>
             lazymatch k with
             | "cards" => fail
             | _ => rewrite (Hsnap k) in * by discriminate
             end
         end.
  destruct (assoc "link_url" snapshot2) as [link|]; [reflexivity|congruence].
Qed.

(** X15.  A link that is not text: when it is false ([null], [0], an
    empty list) it is read as the empty URL, so the domain is the empty
    byte string and the query values are empty texts; when it is true and
    not bytes (a number, a list, an object) both helpers raise
    [AttributeError]. *)
Theorem link_that_is_not_text (url : pyval) (key : string) :
  is_text url = false ->
  (truthy url = false ->
   urlsplit "" = Ok {| netloc := ""; query := "" |} ->
   extract_domain url = Ok (PBytes "") /\ extract_from_url url key = Ok (PStr "")) /\
  (truthy url = true -> is_bytes url = false ->
   extract_domain url = Raise AttributeError /\
   extract_from_url url key = Raise AttributeError).
Proof.
  intros Htext. unfold Normalizer.extract_domain, Normalizer.extract_from_url, urlparse.
  split.
  - intros Hfalse Hsplit.
    destruct url; try discriminate Htext; rewrite Hfalse; simpl; rewrite Hsplit; auto.
  - intros Htrue Hbytes.
    destruct url; try discriminate Htext; try discriminate Hbytes; rewrite Htrue; auto.
Qed.

Lemma extract_from_url_is_text (url : pyval) (key : string) (v : pyval) :
  extract_from_url url key = Ok v -> is_text v = true.
Proof.
  unfold Normalizer.extract_from_url. intros H. apply bind_ok in H as (p & _ & H).
  destruct (parsed_query p); try (injection H as <-; reflexivity).
  destruct (values_of key _) as [[|x l]|]; try discriminate; injection H as <-; reflexivity.
Qed.

Lemma extract_domain_text_or_bytes (url v : pyval) :
  extract_domain url = Ok v -> is_text v = true \/ is_bytes v = true.
Proof.
  unfold Normalizer.extract_domain, urlparse. intros H.
  apply bind_ok in H as (p & Hp & [= <-]).
  destruct url; unbind_all Hp; injection Hp as <-; auto.
Qed.

Lemma ensure_serializable_text (v v' : pyval) :
  is_text v = true \/ is_bytes v = true ->
  ensure_serializable v = Ok v' -> is_text v' = true.
Proof.
  intros [H|H]; destruct v; try discriminate H; simpl.
  - intros [= <-]. reflexivity.
  - intros H'. apply bind_ok in H' as (s' & _ & [= <-]). reflexivity.
Qed.

Lemma process_record_text_fields (item r : pyval) :
  process_record item = Ok r ->
  is_text (field r "domain") = true /\ is_text (field r "keywords") = true /\
  is_text (field r "atxt") = true.
Proof.
  unfold Normalizer.process_record. intros H. unbind_all H.
  pose proof (ensure_serializable_field _ r "domain" _ H eq_refl) as Hd.
  pose proof (ensure_serializable_field _ r "keywords" _ H eq_refl) as Hk.
  pose proof (ensure_serializable_field _ r "atxt" _ H eq_refl) as Ha.
  split; [|split].
  - eapply ensure_serializable_text; [|exact Hd].
    eapply extract_domain_text_or_bytes; eassumption.
  - eapply ensure_serializable_text; [|exact Hk].
    left. eapply extract_from_url_is_text; eassumption.
  - eapply ensure_serializable_text; [|exact Ha].
    left. eapply extract_from_url_is_text; eassumption.
Qed.

(** X16.  In every record [process_ads_data] returns, the domain, the
    keywords and [atxt] are texts, whatever the link of the entry was
    (text, bytes, or a false value). *)
Theorem derived_fields_are_text (ads_data out : list pyval) :
  process_ads_data ads_data = Ok out ->
  Forall (fun r => is_text (field r "domain") = true /\
                   is_text (field r "keywords") = true /\
                   is_text (field r "atxt") = true) out.
Proof.
  intros H. apply process_ads_data_leaves in H.
  induction H as [|leaf r leaves out Hr _ IH]; constructor; [|exact IH].
  exact (process_record_text_fields leaf r Hr).
Qed.

End NormalizerMore.

(** ** The batch of [main] *)

Section BatchMore.

Variable post : string -> nat -> gmap string pyval -> reply.
Variable loads : string -> result pyval.
Variables (scraping_mode session_id ad_status country v_value : string).
Variables (start_date end_date : date).

Local Abbreviation item_params :=
  (Driver.item_params scraping_mode session_id ad_status country v_value start_date end_date).
Local Abbreviation scrape_items :=
  (Driver.scrape_items post loads scraping_mode session_id ad_status country v_value
     start_date end_date).
Local Abbreviation fetched fuel :=
  (fun item records => exists p,
     item_params item = Ok p /\
     outcome (get_ads_data_for_domain (post item) loads fuel p) = Some (Ok records)).

(** X17.  The batch returns exactly when the call of every item
    returns, and what it returns is the records of the items one after
    the other, in the order of the items, after the records it started
    with. *)
Theorem batch_is_the_concatenation (fuel : nat) (items : list string) :
  forall ads_data out,
  scrape_items fuel items ads_data = Some (Ok out) <->
  exists per_item, Forall2 (fetched fuel) items per_item /\ out = ads_data ++ concat per_item.
Proof.
  induction items as [|item rest IH]; intros ads_data out; simpl.
  - split.
    + intros [= <-]. exists []. split; [constructor|]. rewrite app_nil_r. reflexivity.
    + intros (per & Hper & ->). inversion Hper; subst. simpl. rewrite app_nil_r. reflexivity.
  - split.
    + intros H. destruct (item_params item) as [p|e] eqn:Hp; [|discriminate].
      destruct (outcome (get_ads_data_for_domain (post item) loads fuel p))
        as [[records|e]|] eqn:Ho; try discriminate.
      apply IH in H as (per & Hper & ->).
      exists (records :: per). split.
      * constructor; [exists p; auto|exact Hper].
      * simpl. rewrite app_assoc. reflexivity.
    + intros (per & Hper & ->).
      inversion Hper as [|? records ? per' (p & Hp & Ho) Hrest]; subst.
      rewrite Hp, Ho. apply IH. exists per'. split; [exact Hrest|].
      simpl. rewrite app_assoc. reflexivity.
Qed.

(** X18.  The batch raises exactly what its first failing item raises,
    be it the construction of the parameters or the fetching, and the
    items after it are not looked at; the records of the items before
    it are lost. *)
Theorem batch_raises_at_the_first_failure (fuel : nat) (items : list string) (e : exn) :
  forall ads_data,
  scrape_items fuel items ads_data = Some (Raise e) <->
  exists before item after per_item,
    items = before ++ item :: after /\
    Forall2 (fetched fuel) before per_item /\
    (item_params item = Raise e \/
     exists p, item_params item = Ok p /\
       outcome (get_ads_data_for_domain (post item) loads fuel p) = Some (Raise e)).
Proof.
  induction items as [|item rest IH]; intros ads_data; simpl.
  - split; [discriminate|].
    intros (before & item & after & per & H & _). destruct before; discriminate.
  - split.
    + intros H. destruct (item_params item) as [p|e'] eqn:Hp.
      * destruct (outcome (get_ads_data_for_domain (post item) loads fuel p))
          as [[records|e']|] eqn:Ho; try discriminate.
        -- apply IH in H as (before & item' & after & per & -> & Hper & Hfail).
           exists (item :: before), item', after, (records :: per).
           split; [reflexivity|]. split; [|exact Hfail].
           constructor; [exists p; auto|exact Hper].
        -- injection H as ->. exists [], item, rest, [].
           split; [reflexivity|]. split; [constructor|]. right. exists p. auto.
      * injection H as ->. exists [], item, rest, [].
        split; [reflexivity|]. split; [constructor|]. left. exact Hp.
    + intros (before & item' & after & per & Hitems & Hper & Hfail).
      destruct before as [|b before].
      * simpl in Hitems. injection Hitems as <- <-.
        destruct Hfail as [Hp|(p & Hp & Ho)]; rewrite Hp; [reflexivity|].
        rewrite Ho. reflexivity.
      * simpl in Hitems. injection Hitems as <- ->.
        inversion Hper as [|? records ? per' (p & Hp & Ho) Hrest]; subst.
        rewrite Hp, Ho. apply IH. exists before, item', after, per'. auto.
Qed.

(** X19.  The parameters of an item cannot be built exactly when the
    item is the empty text or the scraping mode is neither [Keywords]
    nor [Page IDs]. *)
Theorem item_params_raises_iff (item : string) :
  is_ok (item_params item) = false <->
  item = "" \/ (scraping_mode <> "Keywords" /\ scraping_mode <> "Page IDs").
Proof.
  unfold Driver.item_params, get_params_config.
  destruct (String.eqb_spec scraping_mode "Keywords") as [->|Hk].
  - cbn [String.eqb Ascii.eqb Bool.eqb not_given].
    destruct (String.eqb_spec item "") as [->|Hne]; simpl.
    + split; auto.
    + split; [discriminate|]. intros [H|[H _]]; congruence.
  - cbn [String.eqb Ascii.eqb Bool.eqb].
    destruct (String.eqb_spec scraping_mode "Page IDs") as [->|Hp].
    + cbn [not_given]. destruct (String.eqb_spec item "") as [->|Hne]; simpl.
      * split; auto.
      * split; [discriminate|]. intros [H|[_ H]]; congruence.
    + simpl. split; auto.
Qed.

End BatchMore.

(** ** The inputs of [main] *)

Import Inputs.

Lemma dict_get_set (k n v : string) (d : list (string * string)) :
  dict_get k (dict_set n v d) = if n =? k then Some v else dict_get k d.
Proof.
  induction d as [|[k' v'] d IH]; simpl.
  - destruct (n =? k); reflexivity.
  - destruct (String.eqb_spec k' n) as [->|Hne]; simpl.
    + destruct (n =? k); reflexivity.
    + rewrite IH. destruct (String.eqb_spec n k) as [->|Hnk]; [|reflexivity].
      destruct (String.eqb_spec k' k) as [->|_]; [congruence|reflexivity].
Qed.

Lemma dict_get_fold (k : string) (pairs : list (string * string)) :
  forall d,
  dict_get k (fold_left (fun d nv => dict_set (fst nv) (snd nv) d) pairs d) =
    match last (values_in k pairs) with
    | Some v => Some v
    | None => dict_get k d
    end.
Proof.
  unfold values_in.
  induction pairs as [|[n v] pairs IH]; intros d; simpl; [reflexivity|].
  rewrite IH, dict_get_set.
  destruct (n =? k); simpl; [|reflexivity].
  rewrite last_cons. destruct (last _); reflexivity.
Qed.

Lemma dict_set_keys (k v x : string) (d : list (string * string)) :
  x ∈ map fst (dict_set k v d) <-> x = k \/ x ∈ map fst d.
Proof.
  induction d as [|[k' v'] d IH]; simpl.
  - rewrite list_elem_of_singleton. split; [auto|]. intros [H|H]; [exact H|inversion H].
  - destruct (String.eqb_spec k' k) as [->|Hne]; simpl.
    + rewrite elem_of_cons. tauto.
    + rewrite !elem_of_cons, IH. tauto.
Qed.

Lemma dict_set_NoDup (k v : string) (d : list (string * string)) :
  NoDup (map fst d) -> NoDup (map fst (dict_set k v d)).
Proof.
  induction d as [|[k' v'] d IH]; simpl; intros H.
  - apply NoDup_singleton.
  - apply NoDup_cons in H as [Hk' Hd].
    destruct (String.eqb_spec k' k) as [->|Hne]; simpl.
    + apply NoDup_cons. auto.
    + apply NoDup_cons. split; [|exact (IH Hd)].
      rewrite dict_set_keys. intros [H|H]; [congruence|contradiction].
Qed.

(** X20.  In the form body read from a URL-encoded text every key
    stands once, and its value is the last one the text gives for it. *)
Theorem form_body_keeps_the_last_value (unquote_escapes : string -> string)
    (urlencoded_str k : string) :
  dict_get k (parse_urlencoded_to_dict unquote_escapes urlencoded_str)
    = last (values_in k (parse_qsl unquote_escapes urlencoded_str)) /\
  NoDup (map fst (parse_urlencoded_to_dict unquote_escapes urlencoded_str)).
Proof.
  unfold parse_urlencoded_to_dict. split.
  - rewrite dict_get_fold. destruct (last _); reflexivity.
  - generalize (parse_qsl unquote_escapes urlencoded_str). intros pairs.
    assert (H : forall d, NoDup (map fst d) ->
              NoDup (map fst (fold_left (fun d nv => dict_set (fst nv) (snd nv) d) pairs d))).
    { induction pairs as [|nv pairs IH]; intros d Hd; simpl; [exact Hd|].
      apply IH, dict_set_NoDup, Hd. }
    apply H. constructor.
Qed.

(** X21.  The form body is the empty dictionary when the box is empty
    and when its JSON cannot be decoded; in URL-encoded format it is
    always built; and what escapes is never a [JSONDecodeError]: it is
    another exception of the JSON decoder. *)
Theorem data_dict_swallows_decode_errors (loads : string -> result pyval)
    (unquote_escapes : string -> string) (data_format data_input : string) :
  (data_input = "" -> data_dict loads unquote_escapes data_format data_input = Ok (PDict [])) /\
  (data_format = "JSON" -> loads data_input = Raise JSONDecodeError ->
   data_dict loads unquote_escapes data_format data_input = Ok (PDict [])) /\
  (data_format <> "JSON" ->
   is_ok (data_dict loads unquote_escapes data_format data_input) = true) /\
  (forall e, data_dict loads unquote_escapes data_format data_input = Raise e ->
     e <> JSONDecodeError /\ data_format = "JSON" /\ loads data_input = Raise e).
Proof.
  unfold data_dict. split; [|split; [|split]].
  - intros ->. reflexivity.
  - intros -> Hl. rewrite Hl. destruct (data_input =? ""); reflexivity.
  - intros Hf. destruct (data_input =? ""); [reflexivity|].
    destruct (String.eqb_spec data_format "JSON"); [contradiction|reflexivity].
  - intros e. destruct (data_input =? ""); [discriminate|].
    destruct (String.eqb_spec data_format "JSON") as [->|_]; [|discriminate].
    destruct (loads data_input) as [d|e']; [discriminate|].
    destruct e'; intros [= <-]; (split; [discriminate|split; reflexivity]).
Qed.

Section ItemsMore.

Local Abbreviation conts := (fun t : string => forallb is_continuation (list_ascii_of_string t)).
Local Abbreviation piece_ok :=
  (fun p : string => match p with String _ t => conts t = true | EmptyString => False end).
Local Abbreviation starts :=
  (fun p : string =>
     match p with String c _ => is_continuation c = false | EmptyString => False end).

Lemma chars_piece_app (t : string) : forall (c : ascii) (rest : string),
  conts t = true ->
  match chars rest with q :: _ => starts q | [] => True end ->
  chars (String c t +:+ rest) = String c t :: chars rest.
Proof.
  induction t as [|c1 t1 IH]; intros c rest Hc Hr.
  - change (String c "" +:+ rest) with (String c rest). cbn [chars].
    destruct (chars rest) as [|[|c' next] more]; [reflexivity|contradiction|].
    cbv beta iota in Hr. rewrite Hr. reflexivity.
  - cbn [forallb list_ascii_of_string] in Hc. apply andb_prop in Hc as [Hc1 Hct].
    change (String c (String c1 t1) +:+ rest) with (String c (String c1 t1 +:+ rest)).
    cbn [chars]. rewrite (IH c1 rest Hct Hr). rewrite Hc1. reflexivity.
Qed.

Lemma append_empty_r (s : string) : s +:+ "" = s.
Proof.
  induction s as [|c s IH]; [reflexivity|].
  change (String c s +:+ "") with (String c (s +:+ "")). rewrite IH. reflexivity.
Qed.

Lemma chars_concat (l : list string) :
  Forall piece_ok l -> Forall starts (tail l) -> chars (String.concat "" l) = l.
Proof.
  induction l as [|p ps IH]; intros Hok Hst; [reflexivity|].
  apply Forall_cons in Hok as [Hp Hps]. destruct p as [|c t]; [contradiction|].
  destruct ps as [|q qs].
  - cbn [String.concat]. rewrite <- (append_empty_r (String c t)) at 1.
    rewrite chars_piece_app; [reflexivity|exact Hp|exact I].
  - change (String.concat "" (String c t :: q :: qs))
      with (String c t +:+ String.concat "" (q :: qs)).
    simpl tail in Hst. pose proof Hst as Hst'. apply Forall_cons in Hst' as [Hq Hqs].
    assert (Hrest : chars (String.concat "" (q :: qs)) = q :: qs) by (apply IH; assumption).
    rewrite chars_piece_app; [rewrite Hrest; reflexivity|exact Hp|].
    rewrite Hrest. exact Hq.
Qed.

Lemma chars_pieces (s : string) :
  Forall piece_ok (chars s) /\ Forall starts (tail (chars s)).
Proof.
  induction s as [|c s [IH1 IH2]]; [split; constructor|].
  cbn [chars]. destruct (chars s) as [|[|c' next] more].
  - split; repeat constructor.
  - apply Forall_cons in IH1 as [[] _].
  - apply Forall_cons in IH1 as [Hh Ht]. simpl tail in IH2.
    destruct (is_continuation c') eqn:Hc'.
    + split; [|exact IH2]. apply List.Forall_cons; [|exact Ht].
      cbn [forallb list_ascii_of_string]. rewrite Hc'. exact Hh.
    + split.
      * apply List.Forall_cons; [reflexivity|]. apply List.Forall_cons; assumption.
      * simpl tail. apply List.Forall_cons; assumption.
Qed.

Lemma drop_spaces_suffix (l : list string) : exists pre, l = pre ++ drop_spaces l.
Proof.
  induction l as [|x l (pre & IH)]; simpl; [exists []; reflexivity|].
  destruct (is_space x); [|exists []; reflexivity].
  exists (x :: pre). simpl. rewrite <- IH. reflexivity.
Qed.

Lemma drop_spaces_head (l : list string) :
  match drop_spaces l with x :: _ => is_space x = false | [] => True end.
Proof.
  induction l as [|x l IH]; simpl; [exact I|].
  destruct (is_space x) eqn:Hx; [exact IH|exact Hx].
Qed.

Lemma drop_spaces_fixed (l : list string) : drop_spaces (drop_spaces l) = drop_spaces l.
Proof.
  pose proof (drop_spaces_head l) as H.
  destruct (drop_spaces l) as [|x m]; [reflexivity|]. simpl. rewrite H. reflexivity.
Qed.

Lemma strip_chars_infix (l : list string) : exists a b, l = a ++ strip_chars l ++ b.
Proof.
  unfold strip_chars.
  destruct (drop_spaces_suffix l) as (a & Ha).
  destruct (drop_spaces_suffix (rev (drop_spaces l))) as (b & Hb).
  exists a, (rev b). rewrite Ha at 1. f_equal.
  apply (f_equal (@rev string)) in Hb. rewrite rev_involutive, rev_app_distr in Hb. exact Hb.
Qed.

Lemma strip_chars_head (l : list string) : drop_spaces (strip_chars l) = strip_chars l.
Proof.
  unfold strip_chars.
  destruct (drop_spaces_suffix (rev (drop_spaces l))) as (b & Hb).
  apply (f_equal (@rev string)) in Hb. rewrite rev_involutive, rev_app_distr in Hb.
  pose proof (drop_spaces_head l) as Hh. rewrite Hb in Hh.
  destruct (rev (drop_spaces (rev (drop_spaces l)))) as [|x m]; [reflexivity|].
  simpl in Hh |- *. rewrite Hh. reflexivity.
Qed.

Lemma strip_chars_last (l : list string) :
  drop_spaces (rev (strip_chars l)) = rev (strip_chars l).
Proof.
  unfold strip_chars. rewrite rev_involutive. apply drop_spaces_fixed.
Qed.

Lemma strip_chars_idempotent (l : list string) : strip_chars (strip_chars l) = strip_chars l.
Proof.
  unfold strip_chars at 1. rewrite strip_chars_head, strip_chars_last.
  apply rev_involutive.
Qed.

Lemma pieces_infix (a m b : list string) :
  Forall piece_ok (a ++ m ++ b) -> Forall starts (tail (a ++ m ++ b)) ->
  Forall piece_ok m /\ Forall starts (tail m).
Proof.
  intros Hok Hst. split.
  - apply Forall_app in Hok as [_ Hok]. apply Forall_app in Hok as [Hok _]. exact Hok.
  - destruct m as [|y ys]; [constructor|]. simpl tail.
    destruct a as [|a0 a]; simpl in Hst.
    + apply Forall_app in Hst as [Hst _]. exact Hst.
    + apply Forall_app in Hst as [_ Hst]. apply Forall_cons in Hst as [_ Hst].
      apply Forall_app in Hst as [Hst _]. exact Hst.
Qed.

Lemma chars_strip (s : string) : chars (strip s) = strip_chars (chars s).
Proof.
  unfold strip. destruct (strip_chars_infix (chars s)) as (a & b & Hab).
  destruct (chars_pieces s) as [H1 H2]. rewrite Hab in H1, H2.
  destruct (pieces_infix _ _ _ H1 H2) as [H3 H4].
  apply chars_concat; assumption.
Qed.

Lemma strip_idempotent (s : string) : strip (strip s) = strip s.
Proof.
  unfold strip at 1. rewrite chars_strip, strip_chars_idempotent. reflexivity.
Qed.

(** X22.  The items to scrape are the pieces between the commas of the
    box, each without the white space at its two ends, the empty ones
    left out: an item is never empty and never starts or ends with white
    space. *)
Theorem items_are_stripped_and_not_empty (input_data item : string) :
  (In item (items_to_scrape input_data) <->
   item <> "" /\ exists piece, In piece (split_char ","%char input_data) /\ strip piece = item) /\
  (In item (items_to_scrape input_data) ->
   strip item = item /\
   drop_spaces (chars item) = chars item /\
   drop_spaces (rev (chars item)) = rev (chars item)).
Proof.
  unfold items_to_scrape.
  assert (Hiff : In item (List.filter (fun item => negb (item =? ""))
                            (map strip (split_char ","%char input_data))) <->
                 item <> "" /\
                 exists piece, In piece (split_char ","%char input_data) /\ strip piece = item).
  { rewrite filter_In, in_map_iff. split.
    - intros [(piece & Hs & Hin) Hne]. split; [|eauto].
      destruct (String.eqb_spec item ""); [discriminate|assumption].
    - intros [Hne (piece & Hin & Hs)]. split; [eauto|].
      destruct (String.eqb_spec item ""); [contradiction|reflexivity]. }
  split; [exact Hiff|].
  intros Hin. apply Hiff in Hin as [_ (piece & _ & <-)].
  split; [apply strip_idempotent|].
  rewrite chars_strip. split; [apply strip_chars_head|apply strip_chars_last].
Qed.

End ItemsMore.

(** X23.  In either scraping mode every item of the box is given a
    parameter set: the call of [get_params_config] in the batch never
    raises, the item is the query (the page identifier) of the search,
    and the search starts without a cursor. *)
Theorem every_item_is_searched (scraping_mode session_id ad_status country v_value : string)
    (start_date end_date : date) (input_data item : string) :
  scraping_mode = "Keywords" \/ scraping_mode = "Page IDs" ->
  In item (items_to_scrape input_data) ->
  exists p,
    Driver.item_params scraping_mode session_id ad_status country v_value
      start_date end_date item = Ok p /\
    p !! (if scraping_mode =? "Keywords" then "q" else "view_all_page_id") = Some (PStr item) /\
    p !! "forward_cursor" = None.
Proof.
  intros Hmode Hin. unfold items_to_scrape in Hin.
  apply filter_In in Hin as [_ Hne].
  unfold Driver.item_params, get_params_config.
  destruct Hmode as [-> | ->]; cbn [String.eqb Ascii.eqb Bool.eqb not_given];
    destruct (item =? ""); try discriminate Hne;
    (eexists; split; [reflexivity|]; split;
     [rewrite lookup_union_r by (apply common_params_lookup_fresh; key_not_listed);
      reflexivity
     |apply lookup_union_None; split;
      [apply common_params_lookup_fresh; key_not_listed|reflexivity]]).
Qed.

(** ** The rows of the export *)

Import Exporter.

Section ExporterMore.

Variable days_between : pyval -> pyval -> result pyval.

Local Abbreviation days_running := (days_running days_between).
Local Abbreviation excel_row := (excel_row days_between).
Local Abbreviation ads_details := (ads_details days_between).
Local Abbreviation headers :=
  ["Page Name"; "Link URL"; "Title"; "Original Image/Video URL"; "No of Days Running";
   "Collation Count"; "Creation Time"; "End Date"].

Lemma days_running_none (creation_time end_date : pyval) :
  truthy creation_time = false \/ truthy end_date = false ->
  days_running creation_time end_date = Ok PNone.
Proof.
  unfold Exporter.days_running.
  intros [-> | ->]; [reflexivity|]. rewrite andb_false_r. reflexivity.
Qed.

(** X24.  The number of days is computed only when both dates are
    true; a [ValueError] of the date arithmetic (or an exception derived
    from it) leaves it [None]; any other exception of the arithmetic
    escapes, and nothing else does. *)
Theorem days_running_is_guarded (creation_time end_date : pyval) :
  (truthy creation_time = false \/ truthy end_date = false ->
   days_running creation_time end_date = Ok PNone) /\
  (forall e, days_between end_date creation_time = Raise e -> is_value_error e = true ->
     days_running creation_time end_date = Ok PNone) /\
  (forall e, days_running creation_time end_date = Raise e ->
     truthy creation_time = true /\ truthy end_date = true /\
     days_between end_date creation_time = Raise e /\ is_value_error e = false).
Proof.
  split; [apply days_running_none|]. unfold Exporter.days_running. split.
  - intros e He Hv. rewrite He, Hv. destruct (andb _ _); reflexivity.
  - intros e. destruct (truthy creation_time), (truthy end_date); simpl; try discriminate.
    destruct (days_between end_date creation_time) as [days|e']; [discriminate|].
    destruct (is_value_error e') eqn:Hv; [discriminate|].
    intros [= <-]. auto.
Qed.

Lemma excel_row_of_object (kvs : list (string * pyval)) :
  (forall a b e, days_between a b = Raise e -> is_value_error e = true) ->
  exists row, excel_row (PDict kvs) = Ok (PDict row) /\ map fst row = headers.
Proof.
  intros Hdays. unfold Exporter.excel_row, Exporter.days_running.
  cbn [py_get mbind result_bind].
  destruct (andb _ _).
  - destruct (days_between _ _) as [days|e] eqn:Hd.
    + cbn [mbind result_bind]. destruct (truthy _); eexists; split; reflexivity.
    + rewrite (Hdays _ _ _ Hd). cbn [mbind result_bind].
      destruct (truthy _); eexists; split; reflexivity.
  - cbn [mbind result_bind]. destruct (truthy _); eexists; split; reflexivity.
Qed.

(** X25.  When every record is an object and the date arithmetic
    raises nothing but [ValueError], the export has one row for each
    record, and every row has the eight columns, in the order of the
    sheet. *)
Theorem one_row_per_record (data : list pyval) :
  Forall (fun ad => is_dict ad = true) data ->
  (forall a b e, days_between a b = Raise e -> is_value_error e = true) ->
  exists rows,
    ads_details data = Ok rows /\ length rows = length data /\
    Forall (fun row => exists kvs, row = PDict kvs /\ map fst kvs = headers) rows.
Proof.
  intros Hdata Hdays. induction Hdata as [|ad data Had _ (rows & IH & Hlen & Hrows)].
  - exists []. repeat constructor.
  - destruct ad as [| | | | | | |kvs]; try discriminate Had.
    destruct (excel_row_of_object kvs Hdays) as (row & Hrow & Hkeys).
    exists (PDict row :: rows). simpl. rewrite Hrow. simpl. rewrite IH.
    split; [reflexivity|]. split; [simpl; rewrite Hlen; reflexivity|].
    constructor; [eauto|exact Hrows].
Qed.

(** X26.  The row of a record with the eighteen keys of the normaliser:
    each column is the field of the record it is named after, no default
    is ever used, and the media column is the image when the record has
    one and the video otherwise. *)
Theorem row_of_a_normalised_record (r row : pyval) :
  is_canonical r = true ->
  excel_row r = Ok row ->
  field row "Page Name" = field r "pagename" /\
  field row "Link URL" = field r "link_url" /\
  field row "Title" = field r "title" /\
  field row "Original Image/Video URL" =
    (if truthy (field r "original_image_url") then field r "original_image_url"
     else field r "original_video_url") /\
  field row "Collation Count" = field r "collationCount" /\
  field row "Creation Time" = field r "creation_time" /\
  field row "End Date" = field r "end_date" /\
  (truthy (field r "creation_time") = false \/ truthy (field r "end_date") = false ->
   field row "No of Days Running" = PNone).
Proof.
  destruct r as [| | | | | | |kvs]; try discriminate. simpl is_canonical.
  intros H. apply andb_prop in H as [Hkeys _].
  apply bool_decide_eq_true in Hkeys. unfold canonical_keys in Hkeys.
  do 18 (destruct kvs as [|[? ?] kvs]; [discriminate Hkeys|];
         simpl in Hkeys; injection Hkeys as -> Hkeys).
  destruct kvs; [|discriminate Hkeys]. clear Hkeys.
  unfold Exporter.excel_row.
  cbn [py_get field assoc String.eqb Ascii.eqb Bool.eqb mbind result_bind].
  intros Hrow. apply bind_ok in Hrow as (days & Hdays & Hrow).
  assert (Hnone : truthy p9 = false \/ truthy p10 = false -> days = PNone).
  { intros Hf. rewrite (days_running_none p9 p10 Hf) in Hdays. congruence. }
  destruct (truthy p6); cbn [mbind result_bind] in Hrow; injection Hrow as <-;
    cbn [field assoc String.eqb Ascii.eqb Bool.eqb]; repeat split; exact Hnone.
Qed.

End ExporterMore.

(** ** The further properties on concrete inputs *)

(** Bytes in a list are decoded once and for all. *)
Lemma bytes_are_decoded_once :
  ensure_serializable (PList [PBytes "abc"; PInt 1]) = Ok (PList [PStr "abc"; PInt 1]) /\
  no_bytes (PList [PStr "abc"; PInt 1]) = true /\
  ensure_serializable (PList [PStr "abc"; PInt 1]) = Ok (PList [PStr "abc"; PInt 1]).
Proof.
  split; [reflexivity|].
  exact (ensure_serializable_idempotent (PList [PBytes "abc"; PInt 1])
           (PList [PStr "abc"; PInt 1]) eq_refl).
Defined.

(** An entry without a date that can be read, between two good ones. *)
Lemma undated_entry_aborts :
  normalize [flat_entry; undated_entry; carded_entry]
    = Raise (ValueError "NaTType does not support strftime").
Proof.
  exact (first_failing_entry_aborts urlsplit_generic unquote_nothing to_datetime_epoch
           [flat_entry] [carded_entry] (records_of [flat_entry]) undated_entry _
           eq_refl eq_refl).
Defined.

(** A [null] snapshot. *)
Lemma null_snapshot_raises :
  normalize [PDict [("adid", PStr "5"); ("snapshot", PNone)]] = Raise AttributeError.
Proof.
  apply (malformed_entry_raises urlsplit_generic unquote_nothing to_datetime_epoch);
    [reflexivity|].
  right. exists [("adid", PStr "5"); ("snapshot", PNone)], PNone.
  split; [reflexivity|]. split; reflexivity.
Defined.

(** The flat entry of the specification with a number for its cards. *)
Lemma flat_entry_with_bad_cards :
  process_record urlsplit_generic unquote_nothing to_datetime_epoch
    (PDict [("snapshot", PDict [("link_url", PStr "https://x.com/p?sqs=k1");
                                ("title", PStr "T"); ("cards", PInt 7)]);
            ("adid", PStr "1")])
  = process_record urlsplit_generic unquote_nothing to_datetime_epoch flat_entry.
Proof.
  apply (flat_record_ignores_cards urlsplit_generic unquote_nothing to_datetime_epoch
           [("snapshot", PDict [("link_url", PStr "https://x.com/p?sqs=k1");
                                ("title", PStr "T"); ("cards", PInt 7)]);
            ("adid", PStr "1")]
           [("snapshot", PDict [("link_url", PStr "https://x.com/p?sqs=k1");
                                ("title", PStr "T")]);
            ("adid", PStr "1")]
           [("link_url", PStr "https://x.com/p?sqs=k1"); ("title", PStr "T");
            ("cards", PInt 7)]
           [("link_url", PStr "https://x.com/p?sqs=k1"); ("title", PStr "T")]).
  - reflexivity.
  - reflexivity.
  - intros k Hk. cbn [assoc].
    destruct (String.eqb_spec "snapshot" k); [congruence|reflexivity].
  - intros k Hk. cbn [assoc].
    destruct (String.eqb_spec "cards" k); [congruence|].
    destruct ("link_url" =? k); [reflexivity|]. destruct ("title" =? k); reflexivity.
  - discriminate.
Defined.

(** A link that is [null], and a link that is a number. *)
Lemma null_and_number_links :
  (extract_domain urlsplit_generic PNone = Ok (PBytes "") /\
   extract_from_url urlsplit_generic unquote_nothing PNone "sqs" = Ok (PStr "")) /\
  (extract_domain urlsplit_generic (PInt 7) = Raise AttributeError /\
   extract_from_url urlsplit_generic unquote_nothing (PInt 7) "sqs" = Raise AttributeError).
Proof.
  split.
  - exact (proj1 (link_that_is_not_text urlsplit_generic unquote_nothing PNone "sqs" eq_refl)
             eq_refl eq_refl).
  - exact (proj2 (link_that_is_not_text urlsplit_generic unquote_nothing (PInt 7) "sqs"
                    eq_refl) eq_refl eq_refl).
Defined.

(** The records of a flat entry and of a group. *)
Lemma scenario_fields_are_text :
  Forall (fun r => is_text (field r "domain") = true /\
                   is_text (field r "keywords") = true /\
                   is_text (field r "atxt") = true)
    (records_of [flat_entry; PList [carded_entry]]).
Proof.
  exact (derived_fields_are_text urlsplit_generic unquote_nothing to_datetime_epoch
           [flat_entry; PList [carded_entry]] _ eq_refl).
Defined.

(** A box with a blank piece. *)
Lemma boots_are_searched :
  In "boots" (items_to_scrape "shoes, , boots ") /\
  exists p,
    Driver.item_params "Keywords" "session" "Active" "US" "2c4a00"
      {| year := 2024; month := 1; day := 2 |} {| year := 2024; month := 3; day := 4 |}
      "boots" = Ok p /\
    p !! "q" = Some (PStr "boots") /\ p !! "forward_cursor" = None.
Proof.
  assert (Hin : In "boots" (items_to_scrape "shoes, , boots ")) by (vm_compute; auto).
  split; [exact Hin|].
  exact (every_item_is_searched "Keywords" "session" "Active" "US" "2c4a00"
           {| year := 2024; month := 1; day := 2 |} {| year := 2024; month := 3; day := 4 |}
           "shoes, , boots " "boots" (or_introl eq_refl) Hin).
Defined.

Lemma days_between_table_raises table (a b : pyval) (e : exn) :
  Samples.days_between_table table a b = Raise e -> is_value_error e = true.
Proof.
  induction table as [|[[l' e'] days] table IH]; simpl.
  - intros [= <-]. reflexivity.
  - destruct a; try (intros [= <-]; reflexivity).
    destruct b; try (intros [= <-]; reflexivity).
    destruct (andb _ _); [discriminate|exact IH].
Qed.

(** Two records, one of them empty. *)
Lemma two_records_two_rows :
  exists rows,
    ads_details (Samples.days_between_table Samples.date_table)
      [Samples.dated_record; PDict []] = Ok rows /\
    length rows = 2 /\
    Forall (fun row => exists kvs, row = PDict kvs /\
              map fst kvs = ["Page Name"; "Link URL"; "Title"; "Original Image/Video URL";
                             "No of Days Running"; "Collation Count"; "Creation Time";
                             "End Date"]) rows.
Proof.
  apply (one_row_per_record (Samples.days_between_table Samples.date_table)
           [Samples.dated_record; PDict []]).
  - repeat constructor.
  - apply days_between_table_raises.
Defined.

(** The row of the record of the tagged entry: its end date is missing,
    so the days are. *)
Lemma tagged_record_row :
  exists row,
    excel_row (Samples.days_between_table Samples.date_table) Samples.tagged_record = Ok row /\
    field row "Creation Time" = PStr "2023-11-14" /\
    field row "No of Days Running" = PNone.
Proof.
  eexists. split; [reflexivity|].
  pose proof (row_of_a_normalised_record (Samples.days_between_table Samples.date_table)
                Samples.tagged_record _ eq_refl eq_refl)
    as (_ & _ & _ & _ & _ & Hc & _ & Hd).
  split; [exact Hc|]. apply Hd. right. reflexivity.
Defined.
